(** * Vital Farms stock monitor: a shallow embedding of [vital_farms_monitor.py]

    The script drives a browser through a storefront once per postal code,
    turns what it finds into flat availability records, appends them to a CSV
    file, overwrites a JSON snapshot and prints a summary.

    Modelling conventions.
    - A Python [str] is a [string]; a character stands for one code point
      below 256, on which [lower] and [strip] below agree with Python's
      [str.lower] and [str.strip].  The few decorative glyphs of console
      messages lie outside that range; they are written as they appear in the
      source and are only ever printed, never inspected.
    - The browser and the storefront are the environment.  Every call the
      script makes into them has an [outcome]: it returns a value or raises an
      [Exception] carrying the text of [str(e)].  A [session] lists the outcome
      of each call site of one postal code's check, an [element] those of one
      product card.  [browser.close()], [time.sleep] and [print] are taken to
      return normally.
    - [datetime.now().isoformat()] is read once per record that is built; the
      reading is a field of the element (or of the session, for a sentinel
      record).
    - The two output files are the [files] state threaded through
      [save_results]; writing them is taken to succeed.  A CSV file that
      exists is the list of its rows: its content is taken to end with a line
      terminator, as [csv.DictWriter] leaves it, so that appended rows start
      on a line of their own.
    - Console output is modelled for [print_summary] only, as the list of the
      arguments of its [print] calls. *)

From Stdlib Require Import String Ascii List Bool Arith Lia.
From Stdlib Require DecimalString.
Import ListNotations.
Local Open Scope list_scope.
Local Open Scope string_scope.

(** ** Python string operations *)

Module PyStr.

Definition code (c : ascii) : nat := nat_of_ascii c.

(** [str.lower] on one code point below 256: A-Z, and the Latin-1 capitals
    U+00C0..U+00DE except the multiplication sign U+00D7. *)
Definition lower_char (c : ascii) : ascii :=
  let n := code c in
  if (((65 <=? n) && (n <=? 90)) || ((192 <=? n) && (n <=? 222) && negb (n =? 215)))%nat
  then ascii_of_nat (n + 32)
  else c.

Fixpoint lower (s : string) : string :=
  match s with
  | EmptyString => EmptyString
  | String c s' => String (lower_char c) (lower s')
  end.

(** [s.startswith(p)] *)
Fixpoint startswith (p s : string) : bool :=
  match p, s with
  | EmptyString, _ => true
  | String _ _, EmptyString => false
  | String a p', String b s' => Ascii.eqb a b && startswith p' s'
  end.

(** [needle in hay] *)
Fixpoint contains (needle hay : string) : bool :=
  startswith needle hay ||
  match hay with
  | EmptyString => false
  | String _ hay' => contains needle hay'
  end.

(** The characters [str.strip()] removes, among code points below 256. *)
Definition is_space (c : ascii) : bool :=
  let n := code c in
  (((9 <=? n) && (n <=? 13)) || ((28 <=? n) && (n <=? 32)) || (n =? 133) || (n =? 160))%nat.

Fixpoint lstrip (s : string) : string :=
  match s with
  | EmptyString => EmptyString
  | String c s' => if is_space c then lstrip s' else s
  end.

Fixpoint rstrip (s : string) : string :=
  match s with
  | EmptyString => EmptyString
  | String c s' =>
      match rstrip s' with
      | EmptyString => if is_space c then EmptyString else String c EmptyString
      | t => String c t
      end
  end.

Definition strip (s : string) : string := rstrip (lstrip s).

(** [s.split('\n')[0]] *)
Fixpoint first_line (s : string) : string :=
  match s with
  | EmptyString => EmptyString
  | String c s' => if Ascii.eqb c "010" then EmptyString else String c (first_line s')
  end.

(** [s[:n]] *)
Fixpoint take (n : nat) (s : string) : string :=
  match n, s with
  | S n', String c s' => String c (take n' s')
  | _, _ => EmptyString
  end.

(** [c * n] *)
Fixpoint repeat (c : ascii) (n : nat) : string :=
  match n with
  | O => EmptyString
  | S n' => String c (repeat c n')
  end.

(** The format spec [{s:Ns}]: left-justified in a field of at least [n]
    characters, never truncated. *)
Definition ljust (n : nat) (s : string) : string :=
  s ++ repeat " " (n - String.length s).

(** The newline and double-quote characters, and [s] between double quotes. *)
Definition nl : string := String (ascii_of_nat 10) EmptyString.
Definition dquote : string := String (ascii_of_nat 34) EmptyString.

Definition quoted (s : string) : string := dquote ++ s ++ dquote.

(** [str(n)] for a non-negative integer. *)
Definition of_nat (n : nat) : string :=
  DecimalString.NilZero.string_of_uint (Nat.to_uint n).

End PyStr.

(** ** Records *)

(** One availability record: the dict built in [check_instacart_availability]. *)
Record result : Type := mk_result {
  timestamp : string;
  zip_code : string;
  area : string;
  product : string;
  price : string;
  availability : string;
  store : string
}.

(** ** The environment *)

Inductive outcome (A : Type) : Type :=
| Ok (a : A)
| Raise (msg : string).
Arguments Ok {A} a.
Arguments Raise {A} msg.

Definition bind {A B : Type} (m : outcome A) (k : A -> outcome B) : outcome B :=
  match m with
  | Ok a => k a
  | Raise e => Raise e
  end.

Notation "m1 ;; m2" := (bind m1 (fun _ => m2)) (at level 61, right associativity).

(** One product card, as the extraction loop sees it.  [query_price] and
    [query_store] are the [query_selector] calls: they raise, find nothing
    ([None]) or find a sub-element, whose [inner_text()] has an outcome of its
    own. *)
Record element : Type := mk_element {
  inner_text : outcome string;
  query_price : outcome (option (outcome string));
  inner_html : outcome string;
  query_store : outcome (option (outcome string));
  now_el : string
}.

(** The browser calls of one postal code's check. *)
Record session : Type := mk_session {
  startup : outcome unit;                 (* sync_playwright, launch, new_context, new_page *)
  goto_home : outcome unit;               (* page.goto("https://www.instacart.com/") *)
  click : string -> outcome unit;         (* page.click(selector) *)
  keyboard_type : outcome unit;           (* page.keyboard.type(zip_code) *)
  press_enter : outcome unit;             (* page.keyboard.press('Enter'), location *)
  goto_store : outcome unit;              (* page.goto(".../store?zip_code=...") *)
  fill : string -> outcome unit;          (* page.fill(selector, SEARCH_TERM) *)
  press_search : string -> outcome unit;  (* page.keyboard.press('Enter'), search *)
  goto_search : outcome unit;             (* page.goto(".../store/search?query=...") *)
  screenshot : outcome unit;              (* page.screenshot(...) *)
  wait_for_selector : outcome unit;       (* page.wait_for_selector(...) *)
  query_selector_all : outcome (list element);
  now : string
}.

(** ** Constants *)

Definition ZIP_CODES : list (string * string) :=
  [ ("94301", "Palo Alto, CA");
    ("90210", "Beverly Hills, CA");
    ("94024", "Los Altos, CA");
    ("10019", "Manhattan, NYC");
    ("10583", "Scarsdale, NY");
    ("78746", "Austin, TX");
    ("77005", "Houston, TX");
    ("02138", "Cambridge, MA");
    ("20816", "Bethesda, MD");
    ("98112", "Seattle, WA") ].

Definition location_selectors : list string :=
  [ "button[aria-label*=" ++ PyStr.quoted "location" ++ "]";
    "button:has-text(" ++ PyStr.quoted "Enter your address" ++ ")";
    "[data-testid=" ++ PyStr.quoted "location-selector" ++ "]";
    "input[placeholder*=" ++ PyStr.quoted "address" ++ "]";
    "input[placeholder*=" ++ PyStr.quoted "ZIP" ++ "]" ].

Definition search_selectors : list string :=
  [ "input[placeholder*=" ++ PyStr.quoted "Search" ++ "]";
    "input[type=" ++ PyStr.quoted "search" ++ "]";
    "input[aria-label*=" ++ PyStr.quoted "Search" ++ "]";
    "[data-testid=" ++ PyStr.quoted "search-input" ++ "]" ].

Definition fieldnames : list string :=
  [ "timestamp"; "zip_code"; "area"; "product"; "price"; "availability"; "store" ].

(** ** [check_instacart_availability] *)

(** [for selector in selectors: try: act(selector); done = True; break
     except: continue] *)
Fixpoint try_selectors (act : string -> outcome unit) (selectors : list string) : bool :=
  match selectors with
  | [] => false
  | selector :: rest =>
      match act selector with
      | Ok _ => true
      | Raise _ => try_selectors act rest
      end
  end.

(** The body of the [try] that sets the ZIP code (lines 69-102). *)
Definition set_zip_code (s : session) : outcome unit :=
  if try_selectors (click s) location_selectors
  then keyboard_type s ;; press_enter s
  else goto_store s.

(** The body of the [try] that searches (lines 110-134). *)
Definition search (s : session) : outcome unit :=
  if try_selectors (fun selector => fill s selector ;; press_search s selector)
                   search_selectors
  then Ok tt
  else goto_search s.

(** [price = "N/A"; try: elem = product.query_selector(..);
     if elem: price = elem.inner_text().strip() except: pass], and the same
    for the store. *)
Definition extract_field (default : string) (q : outcome (option (outcome string))) : string :=
  match q with
  | Ok (Some (Ok text)) => PyStr.strip text
  | _ => default
  end.

(** Lines 179-184, on the lowercased markup. *)
Definition classify (product_html : string) : string :=
  if PyStr.contains "out of stock" product_html || PyStr.contains "unavailable" product_html
  then "Out of Stock"
  else if PyStr.contains "add to cart" product_html || PyStr.contains "add" product_html
  then "In Stock"
  else "Available".

Definition determine_availability (el : element) : string :=
  match inner_html el with
  | Ok html => classify (PyStr.lower html)
  | Raise _ => "Unknown"
  end.

(** One turn of the loop over [products[:10]] (lines 159-212). *)
Definition process_product (zip area_name : string) (results : list result) (el : element)
  : list result :=
  match inner_text el with
  | Raise _ => results
  | Ok product_name =>
      if PyStr.contains "vital farms" (PyStr.lower product_name)
      then (results ++ [ {| timestamp := now_el el;
                            zip_code := zip;
                            area := area_name;
                            product := PyStr.first_line product_name;
                            price := extract_field "N/A" (query_price el);
                            availability := determine_availability el;
                            store := extract_field "Multiple Stores" (query_store el) |} ])%list
      else results
  end.

Definition not_found_record (s : session) (zip area_name : string) : result :=
  {| timestamp := now s; zip_code := zip; area := area_name;
     product := "Vital Farms (not found in search)";
     price := "N/A"; availability := "Not Found"; store := "N/A" |}.

Definition scraping_error_record (s : session) (zip area_name e : string) : result :=
  {| timestamp := now s; zip_code := zip; area := area_name;
     product := "Error";
     price := "N/A"; availability := "Scraping Error: " ++ PyStr.take 50 e; store := "N/A" |}.

Definition critical_error_record (s : session) (zip area_name e : string) : result :=
  {| timestamp := now s; zip_code := zip; area := area_name;
     product := "Critical Error";
     price := "N/A"; availability := "Error: " ++ PyStr.take 50 e; store := "N/A" |}.

(** [not l], for a list. *)
Definition is_empty {A : Type} (l : list A) : bool :=
  match l with
  | [] => true
  | _ :: _ => false
  end.

(** The Result Extractor (lines 149-239): nothing raised inside escapes it. *)
Definition extract_products (s : session) (zip area_name : string) (results : list result)
  : list result :=
  match wait_for_selector s ;; query_selector_all s with
  | Raise e => (results ++ [scraping_error_record s zip area_name e])%list
  | Ok products =>
      let results := fold_left (process_product zip area_name) (firstn 10 products) results in
      if is_empty results
      then (results ++ [not_found_record s zip area_name])%list
      else results
  end.

(** The outer [try] with its [except Exception] (lines 61-251), from
    [results = []] to the list that is returned. *)
Definition check_page (s : session) (zip area_name : string) (results : list result)
  : list result :=
  match goto_home s with
  | Raise e => (results ++ [critical_error_record s zip area_name e])%list
  | Ok _ =>
      match set_zip_code s with
      | Ok _ | Raise _ =>                      (* "Attempting to continue anyway..." *)
          match search s with
          | Raise _ => results                 (* browser.close(); return results *)
          | Ok _ =>
              match screenshot s with
              | Raise e => (results ++ [critical_error_record s zip area_name e])%list
              | Ok _ => extract_products s zip area_name results
              end
          end
      end
  end.

Definition check_instacart_availability (s : session) (zip area_name : string)
  : outcome (list result) :=
  startup s ;; Ok (check_page s zip area_name []).

(** ** [main]: the loop over the lookup table *)

(** What the browser does for each postal code of one run. *)
Definition world : Type := string -> session.

(** Lines 338-352: [all_results.extend(results)], or skip the code when the
    check raised. *)
Definition check_all (table : list (string * string)) (w : world) : list result :=
  fold_left
    (fun all_results entry =>
       match check_instacart_availability (w (fst entry)) (fst entry) (snd entry) with
       | Ok results => (all_results ++ results)%list
       | Raise _ => all_results
       end)
    table [].

(** ** [save_results] *)

(** A row of the CSV file, by the [DictWriter] call that wrote it. *)
Inductive csv_row : Type :=
| Header (names : list string)     (* writer.writeheader() *)
| Row (values : list string).      (* writer.writerow(result) *)

(** The two output files; [None] is a file that does not exist. *)
Record files : Type := mk_files {
  csv_file : option (list csv_row);    (* vital_farms_data.csv *)
  json_file : option (list result)     (* vital_farms_data.json *)
}.

Definition writerow (r : result) : csv_row :=
  Row [timestamp r; zip_code r; area r; product r; price r; availability r; store r].

(** [os.path.exists(OUTPUT_CSV)] *)
Definition csv_exists (fs : files) : bool :=
  match csv_file fs with
  | Some _ => true
  | None => false
  end.

(** The rows of the CSV file; opening a missing file in mode 'a' starts from
    none. *)
Definition csv_rows (fs : files) : list csv_row :=
  match csv_file fs with
  | Some rows => rows
  | None => []
  end.

Definition save_results (all_results : list result) (fs : files) : files :=
  if is_empty all_results
  then fs                                                   (* "No results to save" *)
  else
    let file_exists := csv_exists fs in
    {| csv_file := Some (csv_rows fs
                         ++ (if file_exists then [] else [Header fieldnames])
                         ++ map writerow all_results)%list;
       json_file := Some all_results |}.

(** ** [print_summary] *)

Definition count_where (p : result -> bool) (all_results : list result) : nat :=
  List.length (filter p all_results).

Definition status_has (phrase : string) (r : result) : bool :=
  PyStr.contains phrase (PyStr.lower (availability r)).

(** One turn of the loop over [ZIP_CODES.items()] (lines 316-323). *)
Definition zip_line (all_results : list result) (entry : string * string) : string :=
  let zip := fst entry in
  let area_name := snd entry in
  let zip_results := filter (fun r => zip_code r =? zip) all_results in
  match zip_results with
  | first :: _ =>
      zip ++ " (" ++ PyStr.ljust 20 area_name ++ "): "
          ++ PyStr.ljust 15 (availability first) ++ " - " ++ price first
  | [] =>
      zip ++ " (" ++ PyStr.ljust 20 area_name ++ "): No data"
  end.

Definition summary_banner : list string :=
  [ PyStr.nl ++ PyStr.repeat "=" 60; "SUMMARY REPORT"; PyStr.repeat "=" 60 ].

Definition summary_counts (all_results : list result) : list string :=
  [ PyStr.nl ++ "Total Checks: " ++ PyStr.of_nat (List.length all_results);
    "✓ In Stock: " ++ PyStr.of_nat
       (count_where (fun r => status_has "in stock" r || status_has "available" r) all_results);
    "✗ Out of Stock: " ++ PyStr.of_nat (count_where (status_has "out of stock") all_results);
    "? Not Found: " ++ PyStr.of_nat (count_where (status_has "not found") all_results);
    "⚠ Errors: " ++ PyStr.of_nat (count_where (status_has "error") all_results) ].

Definition details_heading : list string :=
  [ PyStr.nl ++ "Details by ZIP Code:"; PyStr.repeat "-" 60 ].

Definition summary_footer : list string :=
  [ PyStr.nl ++ PyStr.repeat "=" 60 ].

(** The arguments of the [print] calls, in order.  [table] is the global
    [ZIP_CODES]. *)
Definition print_summary (table : list (string * string)) (all_results : list result)
  : list string :=
  (summary_banner ++
   if is_empty all_results
   then [ "No data collected" ]
   else summary_counts all_results
        ++ details_heading
        ++ map (zip_line all_results) table
        ++ summary_footer)%list.

(** ** One batch run *)

Record run : Type := mk_run {
  returned : list result;     (* the value of main() *)
  files_after : files;
  summary : list string       (* what print_summary printed *)
}.

Definition main (table : list (string * string)) (w : world) (fs : files) : run :=
  let all_results := check_all table w in
  {| returned := all_results;
     files_after := save_results all_results fs;
     summary := print_summary table all_results |}.

(** ** Vocabulary of the statements *)

(** The check got as far as the Result Extractor: the browser started, the
    home page loaded, the search went through and the screenshot was taken. *)
Definition reaches_extractor (s : session) : Prop :=
  startup s = Ok tt /\ goto_home s = Ok tt /\ search s = Ok tt /\ screenshot s = Ok tt.

(** What one postal code contributes to [all_results]. *)
Definition collected (o : outcome (list result)) : list result :=
  match o with
  | Ok results => results
  | Raise _ => []
  end.

Definition visit (w : world) (entry : string * string) : list result :=
  collected (check_instacart_availability (w (fst entry)) (fst entry) (snd entry)).

(** [s] with other outcomes for the calls of the location phase. *)
Definition with_location (s : session) (clicks : string -> outcome unit)
                         (typed pressed direct : outcome unit) : session :=
  {| startup := startup s; goto_home := goto_home s;
     click := clicks; keyboard_type := typed; press_enter := pressed; goto_store := direct;
     fill := fill s; press_search := press_search s; goto_search := goto_search s;
     screenshot := screenshot s; wait_for_selector := wait_for_selector s;
     query_selector_all := query_selector_all s; now := now s |}.

Definition is_header (row : csv_row) : bool :=
  match row with
  | Header _ => true
  | Row _ => false
  end.

Definition header_rows (fs : files) : nat := List.length (filter is_header (csv_rows fs)).

Definition data_rows (fs : files) : nat :=
  List.length (filter (fun row => negb (is_header row)) (csv_rows fs)).

Definition no_files : files := {| csv_file := None; json_file := None |}.

(** A summary entry of the per-ZIP section starts with the code and [" ("]. *)
Definition is_line_for (zip line : string) : bool := PyStr.startswith (zip ++ " (") line.

Fixpoint has_char (c : ascii) (s : string) : bool :=
  match s with
  | EmptyString => false
  | String a s' => Ascii.eqb a c || has_char c s'
  end.

(** ** Vocabulary of the further properties *)

(** [s] with another outcome for [page.query_selector_all]. *)
Definition with_cards (s : session) (cards : outcome (list element)) : session :=
  {| startup := startup s; goto_home := goto_home s;
     click := click s; keyboard_type := keyboard_type s; press_enter := press_enter s;
     goto_store := goto_store s;
     fill := fill s; press_search := press_search s; goto_search := goto_search s;
     screenshot := screenshot s; wait_for_selector := wait_for_selector s;
     query_selector_all := cards; now := now s |}.

(** The dict of lines 197-205, for a card whose text is [product_name]. *)
Definition card_record (zip area_name : string) (el : element) (product_name : string)
  : result :=
  {| timestamp := now_el el;
     zip_code := zip;
     area := area_name;
     product := PyStr.first_line product_name;
     price := extract_field "N/A" (query_price el);
     availability := determine_availability el;
     store := extract_field "Multiple Stores" (query_store el) |}.

(** The card's text can be read and passes the test of line 164. *)
Definition names_product (el : element) : bool :=
  match inner_text el with
  | Ok product_name => PyStr.contains "vital farms" (PyStr.lower product_name)
  | Raise _ => false
  end.

(** The text of a card that can be read. *)
Definition card_text (el : element) : string :=
  match inner_text el with
  | Ok product_name => product_name
  | Raise _ => ""
  end.

(** The availability labels a product card can get. *)
Definition card_label (label : string) : Prop :=
  label = "Out of Stock" \/ label = "In Stock" \/ label = "Available" \/ label = "Unknown".

(** [s.strip() == s] *)
Definition trimmed (s : string) : Prop := PyStr.strip s = s.

(** The files after [save_results] ran on each list of [runs] in turn. *)
Definition save_all (runs : list (list result)) (fs : files) : files :=
  fold_left (fun files_so_far all_results => save_results all_results files_so_far) runs fs.

(** The JSON snapshot, when there is one, is the tail of the CSV file. *)
Definition snapshot_is_tail (fs : files) : Prop :=
  forall snapshot,
    json_file fs = Some snapshot ->
    exists earlier, csv_file fs = Some (earlier ++ map writerow snapshot)%list.

(** ** Sample environments *)

Module Sample.

Definition timeout : string := "Timeout 30000ms exceeded.".

Definition stamp : string := "2026-11-04T09:00:00.000000".

(** A session in which the location button is found.  [searching] is the
    outcome of filling any search box and of the direct search URL alike; the
    other arguments are the outcomes of the calls that follow. *)
Definition browsing (searching shot wait : outcome unit) (cards : outcome (list element))
  : session :=
  {| startup := Ok tt; goto_home := Ok tt;
     click := fun _ => Ok tt; keyboard_type := Ok tt; press_enter := Ok tt;
     goto_store := Ok tt;
     fill := fun _ => searching; press_search := fun _ => Ok tt; goto_search := searching;
     screenshot := shot; wait_for_selector := wait; query_selector_all := cards;
     now := stamp |}.

Definition card (text : string) (price_elem : option (outcome string)) (html : string)
  : element :=
  {| inner_text := Ok text; query_price := Ok price_elem; inner_html := Ok html;
     query_store := Ok None; now_el := stamp |}.

Definition eggs_text : string := "Vital Farms Pasture-Raised Eggs" ++ PyStr.nl ++ "$7.99".

Definition eggs : element :=
  card eggs_text (Some (Ok "$7.99")) "<span class=price>$7.99</span><button>Add to Cart</button>".

Definition eggs_unpriced : element :=
  card eggs_text None "<span class=cost>$7.99</span><button>Add to Cart</button>".

Definition eggs_sold_out : element :=
  card eggs_text (Some (Ok "$7.99")) "<b>Out of Stock</b><button disabled>Add to Cart</button>".

Definition milk : element :=
  card "Organic Whole Milk" (Some (Ok "$4.49")) "<button>Add to Cart</button>".

Definition found (cards : list element) : session :=
  browsing (Ok tt) (Ok tt) (Ok tt) (Ok cards).

Definition search_fails : session :=
  browsing (Raise timeout) (Ok tt) (Ok tt) (Ok [eggs]).

Definition wait_fails : session :=
  browsing (Ok tt) (Ok tt) (Raise timeout) (Ok [eggs]).

Definition waiting : string :=
  "Page.wait_for_selector: Timeout 10000ms exceeded while waiting for product cards".

Definition wait_times_out : session :=
  browsing (Ok tt) (Ok tt) (Raise waiting) (Ok []).

Definition manhattan : list (string * string) := [ ("10019", "Manhattan, NYC") ].

Definition eggs_record : result :=
  {| timestamp := stamp; zip_code := "10019"; area := "Manhattan, NYC";
     product := "Vital Farms Pasture-Raised Eggs"; price := "$7.99";
     availability := "In Stock"; store := "Multiple Stores" |}.

(** The files as a run that found the eggs in Manhattan leaves them. *)
Definition after_first_run : files :=
  {| csv_file := Some [Header fieldnames; writerow eggs_record];
     json_file := Some [eggs_record] |}.

(** A card whose text cannot be read. *)
Definition detached : element :=
  {| inner_text := Raise "Element is not attached to the DOM";
     query_price := Ok None; inner_html := Ok ""; query_store := Ok None;
     now_el := stamp |}.

(** The eggs, on a card whose price, markup and store cannot be read. *)
Definition eggs_unreadable : element :=
  {| inner_text := Ok eggs_text;
     query_price := Ok (Some (Raise timeout));
     inner_html := Raise timeout;
     query_store := Raise timeout;
     now_el := stamp |}.

Definition startup_fails : session :=
  {| startup := Raise "Executable doesn't exist"; goto_home := Ok tt;
     click := fun _ => Ok tt; keyboard_type := Ok tt; press_enter := Ok tt;
     goto_store := Ok tt;
     fill := fun _ => Ok tt; press_search := fun _ => Ok tt; goto_search := Ok tt;
     screenshot := Ok tt; wait_for_selector := Ok tt; query_selector_all := Ok [];
     now := stamp |}.

(** The eggs, with whitespace around the text of the price element. *)
Definition eggs_padded : element :=
  card eggs_text (Some (Ok "   $7.99  ")) "<button>Add to Cart</button>".

(** A CSV file that exists and is empty, and no JSON file. *)
Definition empty_csv : files := {| csv_file := Some []; json_file := None |}.

(** Every postal code sees the same pages. *)
Definition everywhere (s : session) : world := fun _ => s.

End Sample.

(** ** Facts about the string operations *)

Section StringFacts.

Lemma take_length (n : nat) (s : string) : String.length (PyStr.take n s) <= n.
Proof.
  revert s; induction n as [|n IH]; intros [|c s]; simpl; try lia.
  specialize (IH s); lia.
Qed.

Lemma take_startswith (n : nat) (s : string) : PyStr.startswith (PyStr.take n s) s = true.
Proof.
  revert s; induction n as [|n IH]; intros [|c s]; simpl; try reflexivity.
  rewrite Ascii.eqb_refl; apply IH.
Qed.

Lemma take_all (n : nat) (s : string) : String.length s <= n -> PyStr.take n s = s.
Proof.
  revert s; induction n as [|n IH]; intros [|c s]; simpl; intros Hlen;
    try reflexivity; try lia.
  f_equal; apply IH; lia.
Qed.

Lemma append_assoc (a b c : string) : (a ++ b) ++ c = a ++ b ++ c.
Proof. induction a as [|x a IH]; simpl; [reflexivity | now rewrite IH]. Qed.

Lemma startswith_app (p s : string) : PyStr.startswith p (p ++ s) = true.
Proof.
  induction p as [|c p IH]; simpl; [reflexivity|].
  rewrite Ascii.eqb_refl; exact IH.
Qed.

Lemma startswith_lower (p s : string) :
  PyStr.startswith p s = true -> PyStr.startswith (PyStr.lower p) (PyStr.lower s) = true.
Proof.
  revert s; induction p as [|a p IH]; intros [|b s]; simpl; try easy.
  intros H; apply andb_true_iff in H as [Hab Hps].
  apply Ascii.eqb_eq in Hab; subst b.
  rewrite Ascii.eqb_refl; simpl; auto.
Qed.

Lemma contains_lower (p s : string) :
  PyStr.contains p s = true -> PyStr.contains (PyStr.lower p) (PyStr.lower s) = true.
Proof.
  induction s as [|b s IH]; simpl; intros H.
  - rewrite orb_false_r in *. now apply (startswith_lower p EmptyString).
  - apply orb_true_iff in H as [H|H]; apply orb_true_iff.
    + left; now apply (startswith_lower p (String b s)).
    + right; auto.
Qed.

End StringFacts.

(** ** Facts about the loop of [main] *)

Section Loop.

Variable w : world.

Lemma check_all_from (table : list (string * string)) (acc : list result) :
  fold_left
    (fun all_results entry =>
       match check_instacart_availability (w (fst entry)) (fst entry) (snd entry) with
       | Ok results => (all_results ++ results)%list
       | Raise _ => all_results
       end)
    table acc
  = (acc ++ flat_map (visit w) table)%list.
Proof.
  revert acc; induction table as [|entry table IH]; intros acc; simpl.
  - now rewrite app_nil_r.
  - rewrite IH; unfold visit at 2.
    destruct (check_instacart_availability _ _ _); simpl.
    + now rewrite <- app_assoc.
    + reflexivity.
Qed.

Lemma check_all_flat_map (table : list (string * string)) :
  check_all table w = flat_map (visit w) table.
Proof. unfold check_all; now rewrite check_all_from. Qed.

(** Whatever one code's check does, the codes before and after it are
    checked and their records kept. *)
Lemma check_all_split (before after : list (string * string)) (zip area_name : string) :
  check_all (before ++ (zip, area_name) :: after) w
  = (check_all before w
     ++ collected (check_instacart_availability (w zip) zip area_name)
     ++ check_all after w)%list.
Proof.
  rewrite !check_all_flat_map, flat_map_app; reflexivity.
Qed.

End Loop.

Lemma in_firstn {A : Type} (n : nat) (l : list A) (x : A) : In x (firstn n l) -> In x l.
Proof.
  intros Hin; rewrite <- (firstn_skipn n l); apply in_or_app; now left.
Qed.

(** ** Facts about the check *)

Lemma check_started (s : session) (zip area_name : string) :
  startup s = Ok tt ->
  check_instacart_availability s zip area_name = Ok (check_page s zip area_name []).
Proof. unfold check_instacart_availability; intros ->; reflexivity. Qed.

Lemma check_extracts (s : session) (zip area_name : string) :
  reaches_extractor s ->
  check_instacart_availability s zip area_name = Ok (extract_products s zip area_name []).
Proof.
  intros (Hstart & Hhome & Hsearch & Hshot).
  rewrite check_started by assumption.
  unfold check_page; rewrite Hhome, Hsearch, Hshot.
  destruct (set_zip_code s); reflexivity.
Qed.

Lemma check_search_raises (s : session) (zip area_name e : string) :
  startup s = Ok tt -> goto_home s = Ok tt -> search s = Raise e ->
  check_instacart_availability s zip area_name = Ok [].
Proof.
  intros Hstart Hhome Hsearch.
  rewrite check_started by assumption.
  unfold check_page; rewrite Hhome, Hsearch.
  destruct (set_zip_code s); reflexivity.
Qed.

(** Cards that do not name the product leave the list as it was. *)
Lemma loop_skips_other_products (zip area_name : string) (products : list element) :
  (forall el text, In el products -> inner_text el = Ok text ->
                   PyStr.contains "vital farms" (PyStr.lower text) = false) ->
  forall results,
    fold_left (process_product zip area_name) products results = results.
Proof.
  induction products as [|el products IH]; intros Hnone results; simpl; [reflexivity|].
  assert (Hel : process_product zip area_name results el = results).
  { unfold process_product.
    destruct (inner_text el) as [text|] eqn:Htext; [|reflexivity].
    rewrite (Hnone el text); auto using in_eq. }
  rewrite Hel; apply IH; intros; eapply Hnone; eauto using in_cons.
Qed.

(** ** Availability classification *)

(** C1. For a product element whose name passes the filter and whose markup
    can be read, the record appended for it is classified from the lowercased
    markup in priority order: "out of stock" or "unavailable" gives
    "Out of Stock", whatever else the markup holds; failing that,
    "add to cart" or "add" gives "In Stock"; failing that, "Available". *)
Theorem availability_priority
  (zip area_name : string) (results : list result) (el : element) (product_name html : string) :
  inner_text el = Ok product_name ->
  PyStr.contains "vital farms" (PyStr.lower product_name) = true ->
  inner_html el = Ok html ->
  exists r,
    process_product zip area_name results el = (results ++ [r])%list /\
    (PyStr.contains "out of stock" (PyStr.lower html) = true \/
     PyStr.contains "unavailable" (PyStr.lower html) = true ->
     availability r = "Out of Stock") /\
    (PyStr.contains "out of stock" (PyStr.lower html) = false ->
     PyStr.contains "unavailable" (PyStr.lower html) = false ->
     PyStr.contains "add to cart" (PyStr.lower html) = true \/
     PyStr.contains "add" (PyStr.lower html) = true ->
     availability r = "In Stock") /\
    (PyStr.contains "out of stock" (PyStr.lower html) = false ->
     PyStr.contains "unavailable" (PyStr.lower html) = false ->
     PyStr.contains "add to cart" (PyStr.lower html) = false ->
     PyStr.contains "add" (PyStr.lower html) = false ->
     availability r = "Available").
Proof.
  intros Htext Hname Hhtml.
  unfold process_product; rewrite Htext, Hname.
  eexists; split; [reflexivity|].
  cbn [availability]; unfold determine_availability, classify; rewrite Hhtml.
  repeat split.
  - intros [H|H]; rewrite H; [reflexivity | now rewrite orb_true_r].
  - intros Hout Hun [H|H]; rewrite Hout, Hun, H; [reflexivity | now rewrite orb_true_r].
  - intros Hout Hun Hcart Hadd; now rewrite Hout, Hun, Hcart, Hadd.
Qed.

Lemma availability_priority_witness :
  inner_text Sample.eggs_sold_out = Ok Sample.eggs_text /\
  PyStr.contains "vital farms" (PyStr.lower Sample.eggs_text) = true /\
  PyStr.contains "add to cart"
    (PyStr.lower "<b>Out of Stock</b><button disabled>Add to Cart</button>") = true /\
  exists r,
    process_product "10019" "Manhattan, NYC" [] Sample.eggs_sold_out = [r] /\
    availability r = "Out of Stock".
Proof.
  repeat (split; [reflexivity|]).
  destruct (availability_priority "10019" "Manhattan, NYC" [] Sample.eggs_sold_out
              Sample.eggs_text "<b>Out of Stock</b><button disabled>Add to Cart</button>"
              eq_refl eq_refl eq_refl) as (r & Hr & Hout & _).
  exists r; split; [exact Hr | apply Hout; left; reflexivity].
Defined.

(** ** Failures inside one postal code's check *)

(** C3. When the search phase raises, the check returns the list as it stands,
    which is empty, and the loop of [main] goes on: the run collects what the
    checks of all the other postal codes return, those before and those after
    in table order; in particular every record of the check of the next code
    is in the run's list. *)
Theorem search_failure_returns_empty (w : world) (zip area_name e : string) :
  startup (w zip) = Ok tt ->
  goto_home (w zip) = Ok tt ->
  search (w zip) = Raise e ->
  check_instacart_availability (w zip) zip area_name = Ok [] /\
  (forall before after,
     check_all (before ++ (zip, area_name) :: after) w
     = (flat_map
          (fun entry =>
             collected (check_instacart_availability (w (fst entry)) (fst entry) (snd entry)))
          before
        ++ flat_map
             (fun entry =>
                collected (check_instacart_availability (w (fst entry)) (fst entry) (snd entry)))
             after)%list) /\
  (forall before next_zip next_area after r,
     In r (collected (check_instacart_availability (w next_zip) next_zip next_area)) ->
     In r (check_all (before ++ (zip, area_name) :: (next_zip, next_area) :: after) w)).
Proof.
  intros Hstart Hhome Hsearch.
  assert (Hcheck : check_instacart_availability (w zip) zip area_name = Ok [])
    by (eapply check_search_raises; eassumption).
  assert (Hloop : forall before after,
             check_all (before ++ (zip, area_name) :: after) w
             = (flat_map (visit w) before ++ flat_map (visit w) after)%list).
  { intros before after.
    rewrite check_all_flat_map, flat_map_app; cbn [flat_map].
    unfold visit at 2; cbn [fst snd]; rewrite Hcheck; reflexivity. }
  split; [exact Hcheck|]; split; [exact Hloop|].
  intros before next_zip next_area after r Hin.
  rewrite Hloop; apply in_or_app; right.
  cbn [flat_map]; apply in_or_app; left; exact Hin.
Qed.

Lemma search_failure_returns_empty_witness :
  search Sample.search_fails = Raise Sample.timeout /\
  check_instacart_availability Sample.search_fails "10019" "Manhattan, NYC" = Ok [] /\
  check_all [("94301", "Palo Alto, CA"); ("10019", "Manhattan, NYC"); ("98112", "Seattle, WA")]
            (fun zip => if zip =? "10019" then Sample.search_fails else Sample.found [Sample.eggs])
  = [ {| timestamp := Sample.stamp; zip_code := "94301"; area := "Palo Alto, CA";
         product := "Vital Farms Pasture-Raised Eggs"; price := "$7.99";
         availability := "In Stock"; store := "Multiple Stores" |};
      {| timestamp := Sample.stamp; zip_code := "98112"; area := "Seattle, WA";
         product := "Vital Farms Pasture-Raised Eggs"; price := "$7.99";
         availability := "In Stock"; store := "Multiple Stores" |} ].
Proof.
  split; [reflexivity|].
  destruct (search_failure_returns_empty
              (fun zip => if zip =? "10019" then Sample.search_fails else Sample.found [Sample.eggs])
              "10019" "Manhattan, NYC" Sample.timeout eq_refl eq_refl eq_refl)
    as (Hcheck & Hloop & _).
  split; [exact Hcheck|].
  exact (eq_trans (Hloop [("94301", "Palo Alto, CA")] [("98112", "Seattle, WA")]) eq_refl).
Defined.

(** C4. When product elements are found and none of their texts contains the
    target name, case-insensitively, the check returns exactly one record, the
    not-found sentinel: availability "Not Found", price "N/A".  (The same
    holds when the list of elements is empty.) *)
Theorem no_match_gives_not_found
  (s : session) (zip area_name : string) (products : list element) :
  reaches_extractor s ->
  wait_for_selector s = Ok tt ->
  query_selector_all s = Ok products ->
  (forall el text, In el products -> inner_text el = Ok text ->
                   PyStr.contains "vital farms" (PyStr.lower text) = false) ->
  exists r,
    check_instacart_availability s zip area_name = Ok [r] /\
    r = not_found_record s zip area_name /\
    availability r = "Not Found" /\
    price r = "N/A".
Proof.
  intros Hreach Hwait Hquery Hnone.
  exists (not_found_record s zip area_name).
  split; [|repeat split].
  rewrite check_extracts by assumption.
  unfold extract_products; rewrite Hwait; cbn [bind]; rewrite Hquery.
  rewrite loop_skips_other_products; [reflexivity|].
  intros el text Hin; apply Hnone; exact (in_firstn 10 products el Hin).
Qed.

Lemma no_match_gives_not_found_witness :
  reaches_extractor (Sample.found [Sample.milk]) /\
  exists r,
    check_instacart_availability (Sample.found [Sample.milk]) "10019" "Manhattan, NYC" = Ok [r] /\
    availability r = "Not Found" /\ price r = "N/A".
Proof.
  assert (Hreach : reaches_extractor (Sample.found [Sample.milk])) by (repeat split).
  split; [exact Hreach|].
  destruct (no_match_gives_not_found (Sample.found [Sample.milk]) "10019" "Manhattan, NYC"
              [Sample.milk] Hreach eq_refl eq_refl) as (r & Hr & _ & Ha & Hp).
  - intros el text [<-|[]] Htext; injection Htext as <-; reflexivity.
  - exists r; auto.
Defined.

(** C5. When the wait for product cards raises, the check returns exactly one
    record, whose availability is "Scraping Error: " followed by the first 50
    characters of the exception's message (all of it when it is shorter). *)
Theorem wait_failure_gives_scraping_error (s : session) (zip area_name e : string) :
  reaches_extractor s ->
  wait_for_selector s = Raise e ->
  exists r,
    check_instacart_availability s zip area_name = Ok [r] /\
    r = scraping_error_record s zip area_name e /\
    availability r = "Scraping Error: " ++ PyStr.take 50 e /\
    PyStr.startswith "Scraping Error:" (availability r) = true /\
    String.length (PyStr.take 50 e) <= 50 /\
    PyStr.startswith (PyStr.take 50 e) e = true /\
    (String.length e <= 50 -> PyStr.take 50 e = e).
Proof.
  intros Hreach Hwait.
  exists (scraping_error_record s zip area_name e).
  split; [|split; [reflexivity|split; [reflexivity|split; [reflexivity|]]]].
  - rewrite check_extracts by assumption.
    unfold extract_products; rewrite Hwait; reflexivity.
  - split; [apply take_length|split; [apply take_startswith|apply take_all]].
Qed.

Lemma wait_failure_gives_scraping_error_witness :
  reaches_extractor Sample.wait_times_out /\
  wait_for_selector Sample.wait_times_out = Raise Sample.waiting /\
  String.length Sample.waiting = 80 /\
  exists r,
    check_instacart_availability Sample.wait_times_out "10019" "Manhattan, NYC" = Ok [r] /\
    availability r = "Scraping Error: Page.wait_for_selector: Timeout 10000ms exceeded w".
Proof.
  assert (Hreach : reaches_extractor Sample.wait_times_out) by (repeat split).
  split; [exact Hreach|]; split; [reflexivity|]; split; [reflexivity|].
  destruct (wait_failure_gives_scraping_error Sample.wait_times_out "10019" "Manhattan, NYC"
              Sample.waiting Hreach eq_refl) as (r & Hr & _ & Ha & _).
  exists r; split; [exact Hr | exact Ha].
Defined.

(** C2 (as amended). Once the browser has started, the check of a postal code
    returns a list and raises nothing (a failure to start the browser is
    raised to [main]).  A failed load of the home page or a failed screenshot
    yields exactly one error record; a failed wait or query for product cards
    yields exactly one scraping-error record; a failure of the search phase
    yields the empty list; the outcomes of the location phase change nothing
    in what is returned.  Whatever the check does, the loop of [main] goes on
    to the codes that follow. *)
Theorem check_failure_outcomes (w : world) (zip area_name : string) :
  (startup (w zip) = Ok tt ->
   exists results, check_instacart_availability (w zip) zip area_name = Ok results) /\
  (forall e,
     startup (w zip) = Raise e ->
     check_instacart_availability (w zip) zip area_name = Raise e) /\
  (forall e,
     startup (w zip) = Ok tt -> goto_home (w zip) = Raise e ->
     check_instacart_availability (w zip) zip area_name
     = Ok [critical_error_record (w zip) zip area_name e]) /\
  (forall e,
     startup (w zip) = Ok tt -> goto_home (w zip) = Ok tt -> search (w zip) = Ok tt ->
     screenshot (w zip) = Raise e ->
     check_instacart_availability (w zip) zip area_name
     = Ok [critical_error_record (w zip) zip area_name e]) /\
  (forall e,
     reaches_extractor (w zip) ->
     wait_for_selector (w zip) ;; query_selector_all (w zip) = Raise e ->
     check_instacart_availability (w zip) zip area_name
     = Ok [scraping_error_record (w zip) zip area_name e]) /\
  (forall e,
     startup (w zip) = Ok tt -> goto_home (w zip) = Ok tt -> search (w zip) = Raise e ->
     check_instacart_availability (w zip) zip area_name = Ok []) /\
  (forall clicks typed pressed direct,
     check_instacart_availability (with_location (w zip) clicks typed pressed direct)
                                  zip area_name
     = check_instacart_availability (w zip) zip area_name) /\
  (forall before after,
     check_all (before ++ (zip, area_name) :: after) w
     = (check_all before w
        ++ collected (check_instacart_availability (w zip) zip area_name)
        ++ check_all after w)%list).
Proof.
  repeat apply conj.
  - intros Hstart; rewrite check_started by assumption; eauto.
  - intros e Hstart; unfold check_instacart_availability; rewrite Hstart; reflexivity.
  - intros e Hstart Hhome; rewrite check_started by assumption.
    unfold check_page; rewrite Hhome; reflexivity.
  - intros e Hstart Hhome Hsearch Hshot; rewrite check_started by assumption.
    unfold check_page; rewrite Hhome, Hsearch, Hshot.
    destruct (set_zip_code (w zip)); reflexivity.
  - intros e Hreach Hwait; rewrite check_extracts by assumption.
    unfold extract_products; rewrite Hwait; reflexivity.
  - intros e Hstart Hhome Hsearch.
    eapply check_search_raises; eassumption.
  - intros clicks typed pressed direct.
    unfold check_instacart_availability, check_page, extract_products, search; cbn.
    destruct (startup (w zip)); [|reflexivity]; cbn.
    destruct (goto_home (w zip)); [|reflexivity].
    destruct (set_zip_code (with_location _ _ _ _ _)), (set_zip_code (w zip)); reflexivity.
  - intros before after; apply check_all_split.
Qed.

Lemma check_failure_outcomes_witness :
  reaches_extractor Sample.wait_fails /\
  wait_for_selector Sample.wait_fails ;; query_selector_all Sample.wait_fails
  = Raise Sample.timeout /\
  check_instacart_availability Sample.wait_fails "10019" "Manhattan, NYC"
  = Ok [ {| timestamp := Sample.stamp; zip_code := "10019"; area := "Manhattan, NYC";
            product := "Error"; price := "N/A";
            availability := "Scraping Error: Timeout 30000ms exceeded."; store := "N/A" |} ].
Proof.
  assert (Hreach : reaches_extractor Sample.wait_fails) by (repeat split).
  split; [exact Hreach|]; split; [reflexivity|].
  destruct (check_failure_outcomes (Sample.everywhere Sample.wait_fails)
              "10019" "Manhattan, NYC") as (_ & _ & _ & _ & Hscrape & _).
  exact (Hscrape Sample.timeout Hreach eq_refl).
Defined.

(** A check whose search phase fails returns no record at all, where C2 as
    stated promises exactly one sentinel record. *)
Lemma search_failure_leaves_no_sentinel :
  search Sample.search_fails = Raise Sample.timeout /\
  check_instacart_availability Sample.search_fails "10019" "Manhattan, NYC" = Ok [] /\
  ~ (exists r, check_instacart_availability Sample.search_fails "10019" "Manhattan, NYC"
               = Ok [r]).
Proof.
  split; [reflexivity|]; split; [reflexivity|].
  intros (r & Hr); discriminate Hr.
Qed.

(** ** The example scenario *)

(** C9 (as amended). With the lookup table {"10019": "Manhattan, NYC"} and a
    results page of exactly one product card whose text is
    "Vital Farms Pasture-Raised Eggs\n$7.99", whose price-labelled sub-element
    reads "$7.99" once trimmed, which has no store-labelled sub-element, and
    whose markup contains "Add to Cart" and neither "out of stock" nor
    "unavailable" in any case, the run collects exactly one record:
    zip_code "10019", area "Manhattan, NYC", product
    "Vital Farms Pasture-Raised Eggs", price "$7.99", availability "In Stock",
    store "Multiple Stores". *)
Theorem example_scenario (w : world) (el : element) (html price_text : string) :
  reaches_extractor (w "10019") ->
  wait_for_selector (w "10019") = Ok tt ->
  query_selector_all (w "10019") = Ok [el] ->
  inner_text el = Ok ("Vital Farms Pasture-Raised Eggs" ++ PyStr.nl ++ "$7.99") ->
  inner_html el = Ok html ->
  PyStr.contains "Add to Cart" html = true ->
  PyStr.contains "out of stock" (PyStr.lower html) = false ->
  PyStr.contains "unavailable" (PyStr.lower html) = false ->
  query_price el = Ok (Some (Ok price_text)) ->
  PyStr.strip price_text = "$7.99" ->
  query_store el = Ok None ->
  check_all [("10019", "Manhattan, NYC")] w
  = [ {| timestamp := now_el el; zip_code := "10019"; area := "Manhattan, NYC";
         product := "Vital Farms Pasture-Raised Eggs"; price := "$7.99";
         availability := "In Stock"; store := "Multiple Stores" |} ].
Proof.
  intros Hreach Hwait Hquery Htext Hhtml Hcart Hout Hun Hprice Htrim Hstore.
  apply contains_lower in Hcart; change (PyStr.lower "Add to Cart") with "add to cart" in Hcart.
  rewrite check_all_flat_map; cbn [flat_map]; unfold visit; cbn [fst snd].
  rewrite check_extracts by assumption; cbn [collected].
  unfold extract_products; rewrite Hwait; cbn [bind]; rewrite Hquery.
  cbn [firstn fold_left]; unfold process_product; rewrite Htext.
  change (PyStr.contains "vital farms"
            (PyStr.lower ("Vital Farms Pasture-Raised Eggs" ++ PyStr.nl ++ "$7.99")))
    with true.
  cbn [app is_empty].
  unfold determine_availability, classify; rewrite Hhtml, Hout, Hun, Hcart.
  rewrite Hprice, Hstore; cbn [extract_field orb]; rewrite Htrim.
  reflexivity.
Qed.

Lemma example_scenario_witness :
  reaches_extractor (Sample.found [Sample.eggs]) /\
  inner_text Sample.eggs = Ok ("Vital Farms Pasture-Raised Eggs" ++ PyStr.nl ++ "$7.99") /\
  check_all Sample.manhattan (Sample.everywhere (Sample.found [Sample.eggs]))
  = [ Sample.eggs_record ].
Proof.
  assert (Hreach : reaches_extractor (Sample.found [Sample.eggs])) by (repeat split).
  split; [exact Hreach|]; split; [reflexivity|].
  exact (example_scenario (Sample.everywhere (Sample.found [Sample.eggs])) Sample.eggs
           "<span class=price>$7.99</span><button>Add to Cart</button>" "$7.99"
           Hreach eq_refl eq_refl eq_refl eq_refl eq_refl eq_refl eq_refl eq_refl eq_refl
           eq_refl).
Defined.

(** A card with the text and the "Add to Cart" markup of the scenario, whose
    price sits in an element that none of the price selectors matches: the
    record's price is "N/A", not "$7.99". *)
Lemma unpriced_card_yields_no_price :
  inner_text Sample.eggs_unpriced
  = Ok ("Vital Farms Pasture-Raised Eggs" ++ PyStr.nl ++ "$7.99") /\
  inner_html Sample.eggs_unpriced
  = Ok "<span class=cost>$7.99</span><button>Add to Cart</button>" /\
  PyStr.contains "Add to Cart" "<span class=cost>$7.99</span><button>Add to Cart</button>"
  = true /\
  check_all Sample.manhattan (Sample.everywhere (Sample.found [Sample.eggs_unpriced]))
  = [ {| timestamp := Sample.stamp; zip_code := "10019"; area := "Manhattan, NYC";
         product := "Vital Farms Pasture-Raised Eggs"; price := "N/A";
         availability := "In Stock"; store := "Multiple Stores" |} ].
Proof. repeat split. Qed.

(** ** The output files *)

Section Persistence.

Lemma save_results_nonempty (all_results : list result) (fs : files) :
  all_results <> [] ->
  save_results all_results fs
  = {| csv_file := Some (csv_rows fs
                         ++ (if csv_exists fs then [] else [Header fieldnames])
                         ++ map writerow all_results)%list;
       json_file := Some all_results |}.
Proof.
  destruct all_results as [|r rest]; [congruence|]; intros _; reflexivity.
Qed.

Lemma filter_header_rows (rs : list result) : filter is_header (map writerow rs) = [].
Proof. induction rs as [|r rs IH]; simpl; auto. Qed.

Lemma filter_data_rows (rs : list result) :
  filter (fun row => negb (is_header row)) (map writerow rs) = map writerow rs.
Proof. induction rs as [|r rs IH]; simpl; congruence. Qed.

(** The CSV file after two runs that start without one. *)
Lemma csv_after_two_runs (first second : list result) (fs0 : files) :
  csv_file fs0 = None ->
  csv_file (save_results second (save_results first fs0))
  = if is_empty first && is_empty second
    then None
    else Some ([Header fieldnames] ++ map writerow first ++ map writerow second)%list.
Proof.
  intros Hnone.
  destruct first as [|r1 first], second as [|r2 second];
    unfold save_results, csv_exists, csv_rows; cbn [is_empty andb csv_file];
    rewrite ?Hnone; cbn [app map];
    rewrite ?app_nil_r, <- ?app_assoc; reflexivity.
Qed.

End Persistence.

(** C7 (as amended). The JSON file is overwritten by every run that produced
    at least one record: after two runs of which the second produced records,
    it holds exactly the second run's list, whatever the first run left. *)
Theorem json_holds_second_run (table : list (string * string)) (w1 w2 : world) (fs0 : files) :
  returned (main table w2 (files_after (main table w1 fs0))) <> [] ->
  json_file (files_after (main table w2 (files_after (main table w1 fs0))))
  = Some (returned (main table w2 (files_after (main table w1 fs0)))).
Proof.
  unfold main; cbn [returned files_after]; intros Hsome.
  rewrite save_results_nonempty by assumption; reflexivity.
Qed.

Lemma json_holds_second_run_witness :
  returned (main Sample.manhattan (Sample.everywhere (Sample.found [Sample.eggs_sold_out]))
              (files_after (main Sample.manhattan
                              (Sample.everywhere (Sample.found [Sample.eggs])) no_files)))
  <> [] /\
  json_file
    (files_after
       (main Sample.manhattan (Sample.everywhere (Sample.found [Sample.eggs_sold_out]))
          (files_after (main Sample.manhattan
                          (Sample.everywhere (Sample.found [Sample.eggs])) no_files))))
  = Some (returned
            (main Sample.manhattan (Sample.everywhere (Sample.found [Sample.eggs_sold_out]))
               (files_after (main Sample.manhattan
                               (Sample.everywhere (Sample.found [Sample.eggs])) no_files)))).
Proof.
  assert (Hsome :
    returned (main Sample.manhattan (Sample.everywhere (Sample.found [Sample.eggs_sold_out]))
                (files_after (main Sample.manhattan
                                (Sample.everywhere (Sample.found [Sample.eggs])) no_files)))
    <> []) by (vm_compute; discriminate).
  split; [exact Hsome|].
  exact (json_holds_second_run Sample.manhattan
           (Sample.everywhere (Sample.found [Sample.eggs]))
           (Sample.everywhere (Sample.found [Sample.eggs_sold_out])) no_files Hsome).
Defined.

(** A second run whose every search fails collects nothing and writes nothing:
    the JSON file still holds the first run's record. *)
Lemma json_keeps_first_run :
  returned (main Sample.manhattan (Sample.everywhere (Sample.found [Sample.eggs])) no_files)
  = [Sample.eggs_record] /\
  returned (main Sample.manhattan (Sample.everywhere Sample.search_fails)
              (files_after (main Sample.manhattan
                              (Sample.everywhere (Sample.found [Sample.eggs])) no_files)))
  = [] /\
  json_file
    (files_after
       (main Sample.manhattan (Sample.everywhere Sample.search_fails)
          (files_after (main Sample.manhattan
                          (Sample.everywhere (Sample.found [Sample.eggs])) no_files))))
  = Some [Sample.eggs_record].
Proof. repeat split. Qed.

(** C8 (as amended). The CSV file only grows: a run that produced records
    keeps the rows already there, writes the header only when the file did
    not exist, and appends one row per record.  Two runs that start without
    the file leave as many data rows as both runs produced records, under
    exactly one header row when either run produced a record; when neither
    did, no file is created and there is no header row. *)
Theorem csv_appends_across_runs (table : list (string * string)) (w1 w2 : world) (fs0 : files) :
  csv_file fs0 = None ->
  (forall all_results fs,
     all_results <> [] ->
     csv_file (save_results all_results fs)
     = Some (csv_rows fs
             ++ (if csv_exists fs then [] else [Header fieldnames])
             ++ map writerow all_results)%list) /\
  data_rows (files_after (main table w2 (files_after (main table w1 fs0))))
  = List.length (returned (main table w1 fs0))
    + List.length (returned (main table w2 (files_after (main table w1 fs0)))) /\
  header_rows (files_after (main table w2 (files_after (main table w1 fs0))))
  = (if is_empty (returned (main table w1 fs0))
        && is_empty (returned (main table w2 (files_after (main table w1 fs0))))
     then 0 else 1) /\
  (returned (main table w1 fs0) = [] ->
   returned (main table w2 (files_after (main table w1 fs0))) = [] ->
   csv_file (files_after (main table w2 (files_after (main table w1 fs0)))) = None).
Proof.
  intros Hnone; unfold main; cbn [returned files_after].
  pose proof (csv_after_two_runs (check_all table w1) (check_all table w2) fs0 Hnone) as Hcsv.
  split; [|split; [|split]].
  - intros all_results fs Hsome; now rewrite save_results_nonempty.
  - unfold data_rows, csv_rows; rewrite Hcsv.
    destruct (is_empty (check_all table w1) && is_empty (check_all table w2)) eqn:Hboth.
    + apply andb_true_iff in Hboth as [H1 H2].
      destruct (check_all table w1); [|discriminate].
      destruct (check_all table w2); [|discriminate]; reflexivity.
    + cbn [app filter is_header negb].
      rewrite filter_app, !filter_data_rows, length_app, !length_map; reflexivity.
  - unfold header_rows, csv_rows; rewrite Hcsv.
    destruct (is_empty (check_all table w1) && is_empty (check_all table w2)); [reflexivity|].
    cbn [app filter is_header]; rewrite filter_app, !filter_header_rows; reflexivity.
  - intros H1 H2; rewrite Hcsv, H1, H2; reflexivity.
Qed.

Lemma csv_appends_across_runs_witness :
  csv_file no_files = None /\
  data_rows
    (files_after
       (main ZIP_CODES (Sample.everywhere (Sample.found [Sample.milk]))
          (files_after (main ZIP_CODES
                          (Sample.everywhere (Sample.found [Sample.eggs])) no_files))))
  = 10 + 10 /\
  header_rows
    (files_after
       (main ZIP_CODES (Sample.everywhere (Sample.found [Sample.milk]))
          (files_after (main ZIP_CODES
                          (Sample.everywhere (Sample.found [Sample.eggs])) no_files))))
  = 1.
Proof.
  split; [reflexivity|].
  destruct (csv_appends_across_runs ZIP_CODES
              (Sample.everywhere (Sample.found [Sample.eggs]))
              (Sample.everywhere (Sample.found [Sample.milk])) no_files eq_refl)
    as (_ & Hdata & Hhead & _).
  split; [exact Hdata | exact Hhead].
Defined.

(** Two runs whose every search fails, starting without the file: no CSV file
    is created, so it has no header row, where C8 as stated promises exactly
    one. *)
Lemma csv_has_no_header_after_empty_runs :
  returned (main ZIP_CODES (Sample.everywhere Sample.search_fails) no_files) = [] /\
  csv_file
    (files_after
       (main ZIP_CODES (Sample.everywhere Sample.search_fails)
          (files_after (main ZIP_CODES (Sample.everywhere Sample.search_fails) no_files))))
  = None /\
  header_rows
    (files_after
       (main ZIP_CODES (Sample.everywhere Sample.search_fails)
          (files_after (main ZIP_CODES (Sample.everywhere Sample.search_fails) no_files))))
  <> 1.
Proof. repeat split; vm_compute; discriminate. Qed.

(** C10. With an empty list, [save_results] touches neither file: the CSV file
    is neither created nor appended to, the JSON file neither created nor
    overwritten, so a snapshot left by an earlier run stays in place. *)
Theorem save_results_empty_touches_nothing (fs : files) :
  save_results [] fs = fs /\
  csv_file (save_results [] fs) = csv_file fs /\
  json_file (save_results [] fs) = json_file fs /\
  (forall table w,
     returned (main table w fs) = [] -> files_after (main table w fs) = fs).
Proof.
  repeat split.
  intros table w; unfold main; cbn [returned files_after].
  intros ->; reflexivity.
Qed.

Lemma save_results_empty_touches_nothing_witness :
  returned (main Sample.manhattan (Sample.everywhere Sample.search_fails)
              Sample.after_first_run) = [] /\
  files_after (main Sample.manhattan (Sample.everywhere Sample.search_fails)
                 Sample.after_first_run)
  = {| csv_file := Some [Header fieldnames; writerow Sample.eggs_record];
       json_file := Some [Sample.eggs_record] |}.
Proof.
  split; [reflexivity|].
  destruct (save_results_empty_touches_nothing Sample.after_first_run) as (_ & _ & _ & Hrun).
  exact (Hrun Sample.manhattan (Sample.everywhere Sample.search_fails) eq_refl).
Defined.

(** ** The summary report *)

Section Summary.

Lemma has_char_app (c : ascii) (a b : string) :
  has_char c (a ++ b) = has_char c a || has_char c b.
Proof.
  induction a as [|x a IH]; simpl; [reflexivity|].
  now rewrite IH, orb_assoc.
Qed.

(** A string that starts with [zip ++ c ++ ...] holds the character [c]. *)
Lemma startswith_has_char (zip tail : string) (c : ascii) (line : string) :
  PyStr.startswith (zip ++ String c tail) line = true -> has_char c line = true.
Proof.
  revert line; induction zip as [|a zip IH]; intros [|b line]; simpl; try discriminate.
  - intros H; apply andb_true_iff in H as [H _].
    apply Ascii.eqb_eq in H; subst b; now rewrite Ascii.eqb_refl.
  - intros H; apply andb_true_iff in H as [_ H].
    rewrite (IH line H); apply orb_true_r.
Qed.

Lemma digits_have_no_paren (d : Decimal.uint) :
  has_char "(" (DecimalString.NilEmpty.string_of_uint d) = false.
Proof. induction d; simpl; auto. Qed.

Lemma of_nat_has_no_paren (n : nat) : has_char "(" (PyStr.of_nat n) = false.
Proof.
  unfold PyStr.of_nat, DecimalString.NilZero.string_of_uint.
  destruct (Nat.to_uint n) eqn:E; try (rewrite <- E; apply digits_have_no_paren).
  reflexivity.
Qed.

Lemma not_line_without_paren (zip line : string) :
  has_char "(" line = false -> is_line_for zip line = false.
Proof.
  intros Hno; unfold is_line_for.
  destruct (PyStr.startswith (zip ++ " (") line) eqn:Hstart; [|reflexivity].
  change " (" with (" " ++ String "(" EmptyString) in Hstart.
  rewrite <- append_assoc in Hstart.
  apply startswith_has_char in Hstart; congruence.
Qed.

(** Two keys without a space: the line of one starts with the other and
    [" ("] only when they are the same key. *)
Lemma line_start_determines_key (zip key rest : string) :
  has_char " " zip = false ->
  has_char " " key = false ->
  PyStr.startswith (zip ++ " (") (key ++ " (" ++ rest) = true ->
  zip = key.
Proof.
  revert key; induction zip as [|a zip IH]; intros [|b key];
    cbn [PyStr.startswith append has_char]; intros Hzip Hkey Hstart.
  - reflexivity.
  - apply andb_true_iff in Hstart as [Hab _].
    apply Ascii.eqb_eq in Hab; subst b.
    rewrite Ascii.eqb_refl in Hkey; discriminate.
  - apply andb_true_iff in Hstart as [Hab _].
    apply Ascii.eqb_eq in Hab; subst a.
    rewrite Ascii.eqb_refl in Hzip; discriminate.
  - apply andb_true_iff in Hstart as [Hab Hstart].
    apply Ascii.eqb_eq in Hab; subst b.
    apply orb_false_iff in Hzip as [_ Hzip]; apply orb_false_iff in Hkey as [_ Hkey].
    f_equal; apply IH; assumption.
Qed.

Variable all_results : list result.

Lemma zip_line_shape (entry : string * string) :
  exists rest, zip_line all_results entry = fst entry ++ " (" ++ rest.
Proof.
  unfold zip_line.
  destruct (filter (fun r => zip_code r =? fst entry) all_results); eexists; reflexivity.
Qed.

Lemma zip_line_own (entry : string * string) :
  is_line_for (fst entry) (zip_line all_results entry) = true.
Proof.
  destruct (zip_line_shape entry) as (rest & ->); unfold is_line_for.
  rewrite <- append_assoc; apply startswith_app.
Qed.

Lemma zip_line_other (zip : string) (entry : string * string) :
  has_char " " zip = false ->
  has_char " " (fst entry) = false ->
  zip <> fst entry ->
  is_line_for zip (zip_line all_results entry) = false.
Proof.
  intros Hzip Hkey Hneq.
  destruct (is_line_for zip (zip_line all_results entry)) eqn:Hline; [|reflexivity].
  destruct (zip_line_shape entry) as (rest & Hshape); rewrite Hshape in Hline.
  apply line_start_determines_key in Hline; auto; contradiction.
Qed.

(** The first record of a postal code, as [zip_results[0]] finds it. *)
Lemma zip_line_first (zip area_name : string) :
  zip_line all_results (zip, area_name)
  = match find (fun r => zip_code r =? zip) all_results with
    | Some first =>
        zip ++ " (" ++ PyStr.ljust 20 area_name ++ "): "
            ++ PyStr.ljust 15 (availability first) ++ " - " ++ price first
    | None =>
        zip ++ " (" ++ PyStr.ljust 20 area_name ++ "): No data"
    end.
Proof.
  unfold zip_line; cbn [fst snd].
  induction all_results as [|r rs IH]; simpl; [reflexivity|].
  destruct (zip_code r =? zip); [reflexivity | exact IH].
Qed.

(** Among the lines of a table with distinct keys, one is for [zip]. *)
Lemma details_have_one_line (table : list (string * string)) (zip area_name : string) :
  NoDup (map fst table) ->
  (forall key, In key (map fst table) -> has_char " " key = false) ->
  In (zip, area_name) table ->
  filter (is_line_for zip) (map (zip_line all_results) table)
  = [zip_line all_results (zip, area_name)].
Proof.
  induction table as [|entry table IH]; intros Hdup Hkeys Hin; [contradiction|].
  cbn [map] in Hdup; apply NoDup_cons_iff in Hdup as [Hfresh Hdup].
  assert (Hrest : forall e, In e table -> is_line_for (fst entry) (zip_line all_results e) = false).
  { intros e He; apply zip_line_other.
    - apply Hkeys; now left.
    - apply Hkeys; right; now apply in_map.
    - intros Heq; apply Hfresh; rewrite Heq; now apply in_map. }
  cbn [map filter]; destruct Hin as [->|Hin].
  - change zip with (fst (zip, area_name)) at 1; rewrite zip_line_own; f_equal.
    cbn [fst] in Hrest; clear - Hrest.
    induction table as [|e table IH]; [reflexivity|].
    cbn [map filter]; rewrite (Hrest e) by now left.
    apply IH; intros; apply Hrest; now right.
  - rewrite zip_line_other.
    + apply IH; auto; intros; apply Hkeys; now right.
    + apply (Hkeys zip); right; change zip with (fst (zip, area_name)); now apply in_map.
    + apply Hkeys; now left.
    + intros Heq; apply Hfresh; rewrite <- Heq.
      change zip with (fst (zip, area_name)); now apply in_map.
Qed.

Lemma no_line_in_counts (zip : string) :
  filter (is_line_for zip) (summary_counts all_results) = [].
Proof.
  unfold summary_counts; cbn [filter].
  rewrite !not_line_without_paren; [reflexivity| | | | |];
    rewrite ?has_char_app, of_nat_has_no_paren; reflexivity.
Qed.

End Summary.

(** C6 (as amended). For a non-empty list of records and every postal code of
    the lookup table (codes distinct and without a space, as those of
    [ZIP_CODES] are), the printed summary has exactly one entry for that code:
    the status and price of the first record with that code, or the "No data"
    line when no record has it. *)
Theorem summary_has_one_line_per_zip
  (table : list (string * string)) (all_results : list result) (zip area_name : string) :
  NoDup (map fst table) ->
  (forall key, In key (map fst table) -> has_char " " key = false) ->
  all_results <> [] ->
  In (zip, area_name) table ->
  filter (is_line_for zip) (print_summary table all_results)
  = [ match find (fun r => zip_code r =? zip) all_results with
      | Some first =>
          zip ++ " (" ++ PyStr.ljust 20 area_name ++ "): "
              ++ PyStr.ljust 15 (availability first) ++ " - " ++ price first
      | None =>
          zip ++ " (" ++ PyStr.ljust 20 area_name ++ "): No data"
      end ].
Proof.
  intros Hdup Hkeys Hsome Hin.
  unfold print_summary.
  destruct all_results as [|r rs] eqn:Hall; [congruence|]; cbn [is_empty].
  rewrite <- Hall, !filter_app, no_line_in_counts.
  rewrite (details_have_one_line all_results table zip area_name) by assumption.
  rewrite zip_line_first.
  unfold summary_banner, details_heading, summary_footer; cbn [filter].
  rewrite !not_line_without_paren by reflexivity; reflexivity.
Qed.

Lemma zip_codes_distinct : NoDup (map fst ZIP_CODES).
Proof.
  repeat (apply NoDup_cons; [cbn; intuition discriminate|]); apply NoDup_nil.
Defined.

Lemma zip_codes_have_no_space (key : string) :
  In key (map fst ZIP_CODES) -> has_char " " key = false.
Proof.
  cbn; intros H; repeat (destruct H as [<-|H]; [reflexivity|]); contradiction.
Defined.

Lemma summary_has_one_line_per_zip_witness :
  In ("10019", "Manhattan, NYC") ZIP_CODES /\
  In ("98112", "Seattle, WA") ZIP_CODES /\
  filter (is_line_for "10019") (print_summary ZIP_CODES [Sample.eggs_record])
  = [ "10019 (Manhattan, NYC      ): In Stock        - $7.99" ] /\
  filter (is_line_for "98112") (print_summary ZIP_CODES [Sample.eggs_record])
  = [ "98112 (Seattle, WA         ): No data" ].
Proof.
  assert (Hny : In ("10019", "Manhattan, NYC") ZIP_CODES) by (cbn; tauto).
  assert (Hwa : In ("98112", "Seattle, WA") ZIP_CODES) by (cbn; tauto).
  assert (Hsome : [Sample.eggs_record] <> []) by discriminate.
  split; [exact Hny|]; split; [exact Hwa|]; split.
  - exact (summary_has_one_line_per_zip ZIP_CODES [Sample.eggs_record]
             "10019" "Manhattan, NYC"
             zip_codes_distinct zip_codes_have_no_space Hsome Hny).
  - exact (summary_has_one_line_per_zip ZIP_CODES [Sample.eggs_record]
             "98112" "Seattle, WA"
             zip_codes_distinct zip_codes_have_no_space Hsome Hwa).
Defined.

(** With no record at all the report stops after "No data collected": it has
    no per-ZIP section, and no entry for any postal code. *)
Lemma summary_of_nothing_has_no_zip_line :
  print_summary ZIP_CODES []
  = [ PyStr.nl ++ PyStr.repeat "=" 60; "SUMMARY REPORT"; PyStr.repeat "=" 60;
      "No data collected" ] /\
  filter (is_line_for "94301") (print_summary ZIP_CODES []) = [] /\
  filter (is_line_for "94301") (print_summary ZIP_CODES [])
  <> [ "94301 (Palo Alto, CA       ): No data" ].
Proof. repeat split; discriminate. Qed.

(** * Further properties of the code *)

(** ** The loop over the product cards *)

Section Cards.

Variables zip area_name : string.

(** A turn of the loop only appends, and what it appends does not depend on
    what was found before. *)
Lemma process_product_appends (results : list result) (el : element) :
  process_product zip area_name results el
  = (results ++ process_product zip area_name [] el)%list.
Proof.
  unfold process_product.
  destruct (inner_text el) as [product_name|]; [|now rewrite app_nil_r].
  destruct (PyStr.contains _ _); [reflexivity | now rewrite app_nil_r].
Qed.

Lemma process_product_kept (el : element) :
  process_product zip area_name [] el
  = match inner_text el with
    | Ok product_name =>
        if names_product el then [card_record zip area_name el product_name] else []
    | Raise _ => []
    end.
Proof.
  unfold process_product, names_product.
  destruct (inner_text el) as [product_name|]; [|reflexivity].
  destruct (PyStr.contains _ _); reflexivity.
Qed.

Lemma process_product_skipped (el : element) :
  names_product el = false -> process_product zip area_name [] el = [].
Proof.
  intros Hskip; rewrite process_product_kept, Hskip.
  destruct (inner_text el); reflexivity.
Qed.

Lemma loop_is_flat_map (products : list element) (results : list result) :
  fold_left (process_product zip area_name) products results
  = (results ++ flat_map (process_product zip area_name []) products)%list.
Proof.
  revert results; induction products as [|el products IH]; intros results; cbn [fold_left flat_map].
  - now rewrite app_nil_r.
  - rewrite IH, process_product_appends, <- app_assoc; reflexivity.
Qed.

Lemma loop_length (products : list element) :
  List.length (flat_map (process_product zip area_name []) products) <= List.length products.
Proof.
  induction products as [|el products IH]; cbn [flat_map List.length]; [lia|].
  rewrite length_app, process_product_kept.
  destruct (inner_text el); [destruct (names_product el)|]; cbn [List.length]; lia.
Qed.

(** Where a record of the loop comes from. *)
Lemma loop_record_origin (products : list element) (r : result) :
  In r (flat_map (process_product zip area_name []) products) ->
  exists el product_name,
    In el products /\ inner_text el = Ok product_name /\ names_product el = true /\
    r = card_record zip area_name el product_name.
Proof.
  intros Hin; apply in_flat_map in Hin as (el & Hel & Hr).
  rewrite process_product_kept in Hr.
  destruct (inner_text el) as [product_name|] eqn:Htext; [|contradiction].
  destruct (names_product el) eqn:Hname; [|contradiction].
  destruct Hr as [<-|[]]; eauto 10.
Qed.

Variable s : session.

Lemma extract_products_unfolded :
  extract_products s zip area_name []
  = match wait_for_selector s ;; query_selector_all s with
    | Raise e => [scraping_error_record s zip area_name e]
    | Ok products =>
        if is_empty (flat_map (process_product zip area_name []) (firstn 10 products))
        then [not_found_record s zip area_name]
        else flat_map (process_product zip area_name []) (firstn 10 products)
    end.
Proof.
  unfold extract_products.
  destruct (wait_for_selector s ;; query_selector_all s) as [products|e]; [|reflexivity].
  cbv zeta; rewrite loop_is_flat_map; cbn [app].
  destruct (flat_map _ _); reflexivity.
Qed.

(** Where a record of the Result Extractor comes from. *)
Lemma extract_products_origin (r : result) :
  In r (extract_products s zip area_name []) ->
  r = not_found_record s zip area_name \/
  (exists e, r = scraping_error_record s zip area_name e) \/
  (exists el product_name,
     inner_text el = Ok product_name /\ names_product el = true /\
     r = card_record zip area_name el product_name).
Proof.
  rewrite extract_products_unfolded.
  destruct (wait_for_selector s ;; query_selector_all s) as [products|e].
  - destruct (flat_map _ _) eqn:Hfound; cbn [is_empty].
    + intros [<-|[]]; now left.
    + rewrite <- Hfound; intros Hin.
      apply loop_record_origin in Hin as (el & product_name & _ & Htext & Hname & ->).
      right; right; eauto.
  - intros [<-|[]]; right; left; eauto.
Qed.

(** Where a record of a check comes from. *)
Lemma check_record_origin (r : result) :
  In r (collected (check_instacart_availability s zip area_name)) ->
  r = not_found_record s zip area_name \/
  (exists e, r = scraping_error_record s zip area_name e) \/
  (exists e, r = critical_error_record s zip area_name e) \/
  (exists el product_name,
     inner_text el = Ok product_name /\ names_product el = true /\
     r = card_record zip area_name el product_name).
Proof.
  unfold check_instacart_availability, check_page.
  destruct (startup s); [|contradiction]; cbn [bind collected].
  destruct (goto_home s) as [|e]; [|intros [<-|[]]; eauto 6].
  destruct (set_zip_code s), (search s); try contradiction;
    (destruct (screenshot s) as [|e]; [|intros [<-|[]]; eauto 6]);
    intros Hin; apply extract_products_origin in Hin;
    destruct Hin as [H|[H|H]]; auto.
Qed.

End Cards.

(** ** What a check returns *)

Lemma check_with_cards (s : session) (cards : outcome (list element)) (zip area_name : string) :
  check_instacart_availability (with_cards s cards) zip area_name
  = startup s ;;
    Ok (match goto_home s with
        | Raise e => [critical_error_record s zip area_name e]
        | Ok _ =>
            match search s with
            | Raise _ => []
            | Ok _ =>
                match screenshot s with
                | Raise e => [critical_error_record s zip area_name e]
                | Ok _ => extract_products (with_cards s cards) zip area_name []
                end
            end
        end).
Proof.
  unfold check_instacart_availability, check_page; cbn [startup goto_home screenshot with_cards].
  change (search (with_cards s cards)) with (search s).
  destruct (startup s); [|reflexivity]; cbn [bind].
  destruct (goto_home s); [|reflexivity].
  destruct (set_zip_code (with_cards s cards)); reflexivity.
Qed.

Lemma extract_products_length (s : session) (zip area_name : string) :
  1 <= List.length (extract_products s zip area_name []) <= 10.
Proof.
  rewrite extract_products_unfolded.
  destruct (wait_for_selector s ;; query_selector_all s) as [products|e];
    cbn [List.length]; [|lia].
  pose proof (loop_length zip area_name (firstn 10 products)) as Hloop.
  pose proof (firstn_le_length 10 products) as Hten.
  destruct (flat_map _ _); cbn [is_empty List.length] in *; lia.
Qed.

(** X1. A check never returns more than ten records, however many product
    cards the page shows, and a run at most ten per postal code of the
    table. *)
Theorem check_returns_at_most_ten
  (table : list (string * string)) (w : world) (fs : files) (s : session)
  (zip area_name : string) :
  List.length (collected (check_instacart_availability s zip area_name)) <= 10 /\
  List.length (returned (main table w fs)) <= 10 * List.length table.
Proof.
  assert (Hcheck : forall s' zip' area_name',
             List.length (collected (check_instacart_availability s' zip' area_name')) <= 10).
  { clear; intros s zip area_name.
    unfold check_instacart_availability, check_page.
    destruct (startup s); cbn [bind collected List.length]; [|lia].
    destruct (goto_home s); cbn [app List.length]; [|lia].
    pose proof (extract_products_length s zip area_name) as Hextract.
    destruct (set_zip_code s), (search s), (screenshot s); cbn [app List.length]; lia. }
  split; [apply Hcheck|].
  unfold main; cbn [returned].
  rewrite check_all_flat_map.
  induction table as [|entry table IH]; cbn [flat_map List.length]; [lia|].
  rewrite length_app; unfold visit at 1.
  specialize (Hcheck (w (fst entry)) (fst entry) (snd entry)); lia.
Qed.

(** X2. A check returns no record at all in two cases only: the browser did
    not start, or the home page loaded and the search phase raised.  In every
    other case it returns at least one record. *)
Theorem check_returns_nothing_iff (s : session) (zip area_name : string) :
  collected (check_instacart_availability s zip area_name) = [] <->
  (exists e, startup s = Raise e) \/
  (startup s = Ok tt /\ goto_home s = Ok tt /\ exists e, search s = Raise e).
Proof.
  split.
  - unfold check_instacart_availability, check_page.
    destruct (startup s) as [[]|e]; [|eauto]; cbn [bind collected].
    destruct (goto_home s) as [[]|e]; [|discriminate].
    destruct (search s) as [[]|e] eqn:Hsearch; [|eauto 6].
    pose proof (extract_products_length s zip area_name) as Hsome.
    destruct (set_zip_code s), (screenshot s); try discriminate;
      intros Hnil; rewrite Hnil in Hsome; cbn in Hsome; lia.
  - intros [(e & Hstart)|(Hstart & Hhome & e & Hsearch)].
    + unfold check_instacart_availability; rewrite Hstart; reflexivity.
    + erewrite check_search_raises by eassumption; reflexivity.
Qed.

Lemma check_returns_nothing_iff_witness :
  collected (check_instacart_availability Sample.startup_fails "10019" "Manhattan, NYC") = [] /\
  collected (check_instacart_availability Sample.search_fails "10019" "Manhattan, NYC") = [].
Proof.
  split.
  - apply (proj2 (check_returns_nothing_iff Sample.startup_fails "10019" "Manhattan, NYC")).
    left; eexists; reflexivity.
  - apply (proj2 (check_returns_nothing_iff Sample.search_fails "10019" "Manhattan, NYC")).
    right; repeat split; eexists; reflexivity.
Defined.

(** X3. Every record a check returns, found or sentinel, carries the postal
    code and the area name the check was called with. *)
Theorem check_tags_records (s : session) (zip area_name : string) (r : result) :
  In r (collected (check_instacart_availability s zip area_name)) ->
  zip_code r = zip /\ area r = area_name.
Proof.
  intros Hin; apply check_record_origin in Hin.
  destruct Hin as [->|[(e & ->)|[(e & ->)|(el & product_name & _ & _ & ->)]]];
    split; reflexivity.
Qed.

Lemma check_tags_records_witness :
  In Sample.eggs_record
     (collected (check_instacart_availability (Sample.found [Sample.milk; Sample.eggs])
                   "10019" "Manhattan, NYC")) /\
  zip_code Sample.eggs_record = "10019" /\ area Sample.eggs_record = "Manhattan, NYC".
Proof.
  assert (Hin : In Sample.eggs_record
                   (collected (check_instacart_availability
                                 (Sample.found [Sample.milk; Sample.eggs])
                                 "10019" "Manhattan, NYC"))) by (left; reflexivity).
  split; [exact Hin|].
  exact (check_tags_records (Sample.found [Sample.milk; Sample.eggs])
           "10019" "Manhattan, NYC" Sample.eggs_record Hin).
Defined.

(** X4. Product cards after the tenth are never looked at: the check returns
    the same with all the cards of the page as with the first ten alone. *)
Theorem cards_after_tenth_are_ignored
  (s : session) (zip area_name : string) (products : list element) :
  check_instacart_availability (with_cards s (Ok products)) zip area_name
  = check_instacart_availability (with_cards s (Ok (firstn 10 products))) zip area_name.
Proof.
  rewrite !check_with_cards, !extract_products_unfolded.
  cbn [wait_for_selector query_selector_all now with_cards].
  destruct (wait_for_selector s); cbn [bind]; [|reflexivity].
  rewrite firstn_firstn; reflexivity.
Qed.

(** X5. A card among the first ten whose text cannot be read, or does not
    contain the product name, yields no record but still takes one of the ten
    places: the check returns the same as on the page made of the cards
    before it and the first [9 - length before] cards after it.  On a page of
    at most ten cards the check therefore returns the same as if the card
    were not on the page. *)
Theorem skipped_card_changes_nothing
  (s : session) (zip area_name : string) (before after : list element) (el : element) :
  names_product el = false ->
  List.length before < 10 ->
  check_instacart_availability (with_cards s (Ok (before ++ el :: after)%list)) zip area_name
  = check_instacart_availability
      (with_cards s (Ok (before ++ firstn (9 - List.length before) after)%list))
      zip area_name /\
  (List.length (before ++ el :: after)%list <= 10 ->
   check_instacart_availability (with_cards s (Ok (before ++ el :: after)%list)) zip area_name
   = check_instacart_availability (with_cards s (Ok (before ++ after)%list)) zip area_name).
Proof.
  intros Hskip Hbefore.
  assert (Hplaces :
    check_instacart_availability (with_cards s (Ok (before ++ el :: after)%list))
                                 zip area_name
    = check_instacart_availability
        (with_cards s (Ok (before ++ firstn (9 - List.length before) after)%list))
        zip area_name).
  { rewrite !check_with_cards, !extract_products_unfolded.
    cbn [wait_for_selector query_selector_all now with_cards].
    destruct (wait_for_selector s); cbn [bind]; [|reflexivity].
    rewrite !firstn_app, firstn_firstn.
    replace (Nat.min (10 - List.length before) (9 - List.length before))
      with (9 - List.length before) by lia.
    replace (10 - List.length before) with (S (9 - List.length before)) by lia.
    rewrite firstn_cons, !flat_map_app; cbn [flat_map].
    rewrite (process_product_skipped zip area_name el Hskip); reflexivity. }
  split; [exact Hplaces|].
  intros Hlen; rewrite Hplaces, firstn_all2; [reflexivity|].
  rewrite length_app in Hlen; cbn [List.length] in Hlen; lia.
Qed.

Lemma skipped_card_changes_nothing_witness :
  names_product Sample.detached = false /\
  check_instacart_availability
    (with_cards (Sample.found []) (Ok ([Sample.milk] ++ Sample.detached :: [Sample.eggs])%list))
    "10019" "Manhattan, NYC"
  = check_instacart_availability
      (with_cards (Sample.found []) (Ok ([Sample.milk] ++ [Sample.eggs])%list))
      "10019" "Manhattan, NYC".
Proof.
  split; [reflexivity|].
  apply (proj2 (skipped_card_changes_nothing (Sample.found []) "10019" "Manhattan, NYC"
                  [Sample.milk] [Sample.eggs] Sample.detached eq_refl
                  (ltac:(cbn; lia) : List.length [Sample.milk] < 10))).
  cbn; lia.
Defined.

Lemma loop_keeps_named_cards (zip area_name : string) (products : list element) :
  flat_map (process_product zip area_name []) products
  = map (fun el => card_record zip area_name el (card_text el))
        (filter names_product products).
Proof.
  induction products as [|el products IH]; cbn [flat_map filter]; [reflexivity|].
  rewrite IH, process_product_kept.
  destruct (inner_text el) as [product_name|] eqn:Htext.
  - destruct (names_product el); [|reflexivity].
    cbn [map app]; f_equal.
    unfold card_text; rewrite Htext; reflexivity.
  - unfold names_product; rewrite Htext; reflexivity.
Qed.

(** X6. When the product cards can be queried, the check returns one record
    for each of the first ten cards whose text contains the product name, in
    the order of the page, or the not-found record alone when there is none. *)
Theorem records_follow_page_order
  (s : session) (zip area_name : string) (products : list element) :
  reaches_extractor s ->
  wait_for_selector s = Ok tt ->
  query_selector_all s = Ok products ->
  check_instacart_availability s zip area_name
  = Ok (match filter names_product (firstn 10 products) with
        | [] => [not_found_record s zip area_name]
        | kept => map (fun el => card_record zip area_name el (card_text el)) kept
        end).
Proof.
  intros Hreach Hwait Hquery.
  rewrite check_extracts by assumption.
  rewrite extract_products_unfolded, Hwait; cbn [bind]; rewrite Hquery.
  rewrite loop_keeps_named_cards.
  destruct (filter names_product (firstn 10 products)); reflexivity.
Qed.

Lemma records_follow_page_order_witness :
  reaches_extractor (Sample.found [Sample.eggs_sold_out; Sample.milk; Sample.eggs]) /\
  check_instacart_availability (Sample.found [Sample.eggs_sold_out; Sample.milk; Sample.eggs])
                               "10019" "Manhattan, NYC"
  = Ok [ card_record "10019" "Manhattan, NYC" Sample.eggs_sold_out Sample.eggs_text;
         card_record "10019" "Manhattan, NYC" Sample.eggs Sample.eggs_text ].
Proof.
  assert (Hreach : reaches_extractor
                     (Sample.found [Sample.eggs_sold_out; Sample.milk; Sample.eggs]))
    by (repeat split).
  split; [exact Hreach|].
  exact (records_follow_page_order
           (Sample.found [Sample.eggs_sold_out; Sample.milk; Sample.eggs])
           "10019" "Manhattan, NYC" [Sample.eggs_sold_out; Sample.milk; Sample.eggs]
           Hreach eq_refl eq_refl).
Defined.

(** X7. A card that names the product always yields its record, whatever
    happens while its details are read: the product is the first line of the
    card's text; the price is "N/A" unless a price element was found and read,
    the store "Multiple Stores" unless a store element was found and read, the
    availability "Unknown" unless the markup was read. *)
Theorem failed_reads_keep_defaults
  (zip area_name : string) (results : list result) (el : element) (product_name : string) :
  inner_text el = Ok product_name ->
  PyStr.contains "vital farms" (PyStr.lower product_name) = true ->
  exists r,
    process_product zip area_name results el = (results ++ [r])%list /\
    product r = PyStr.first_line product_name /\
    ((forall text, query_price el <> Ok (Some (Ok text))) -> price r = "N/A") /\
    ((forall text, query_store el <> Ok (Some (Ok text))) -> store r = "Multiple Stores") /\
    ((forall html, inner_html el <> Ok html) -> availability r = "Unknown").
Proof.
  intros Htext Hname.
  unfold process_product; rewrite Htext, Hname.
  eexists; split; [reflexivity|]; cbn [product price store availability].
  split; [reflexivity|]; repeat split.
  - intros Hnone; unfold extract_field.
    destruct (query_price el) as [ [ [text | ] | ] | ]; try reflexivity.
    now destruct (Hnone text).
  - intros Hnone; unfold extract_field.
    destruct (query_store el) as [ [ [text | ] | ] | ]; try reflexivity.
    now destruct (Hnone text).
  - intros Hnone; unfold determine_availability.
    destruct (inner_html el) as [html|]; [now destruct (Hnone html) | reflexivity].
Qed.

Lemma failed_reads_keep_defaults_witness :
  inner_text Sample.eggs_unreadable = Ok Sample.eggs_text /\
  exists r,
    process_product "10019" "Manhattan, NYC" [] Sample.eggs_unreadable = [r] /\
    product r = "Vital Farms Pasture-Raised Eggs" /\
    price r = "N/A" /\ store r = "Multiple Stores" /\ availability r = "Unknown".
Proof.
  split; [reflexivity|].
  destruct (failed_reads_keep_defaults "10019" "Manhattan, NYC" [] Sample.eggs_unreadable
              Sample.eggs_text eq_refl eq_refl) as (r & Hr & Hproduct & Hprice & Hstore & Hmarkup).
  exists r; split; [exact Hr|]; split; [exact Hproduct|]; repeat split.
  - apply Hprice; intros text; discriminate.
  - apply Hstore; intros text; discriminate.
  - apply Hmarkup; intros html; discriminate.
Defined.

Lemma classify_labels (product_html : string) :
  classify product_html = "Out of Stock" \/ classify product_html = "In Stock" \/
  classify product_html = "Available".
Proof.
  unfold classify.
  destruct (_ || _); [now left|]; destruct (_ || _); [right; now left | right; now right].
Qed.

Lemma determine_availability_label (el : element) : card_label (determine_availability el).
Proof.
  unfold determine_availability, card_label.
  destruct (inner_html el) as [html|]; [|tauto].
  destruct (classify_labels (PyStr.lower html)) as [-> | [-> | ->]]; tauto.
Qed.

(** X8. The availability of a record returned by a check is one of the four
    card labels "Out of Stock", "In Stock", "Available" and "Unknown", or
    "Not Found", or "Scraping Error: " or "Error: " followed by at most the
    first 50 characters of an exception's message. *)
Theorem availability_values (s : session) (zip area_name : string) (r : result) :
  In r (collected (check_instacart_availability s zip area_name)) ->
  card_label (availability r) \/
  availability r = "Not Found" \/
  (exists e, availability r = "Scraping Error: " ++ PyStr.take 50 e) \/
  (exists e, availability r = "Error: " ++ PyStr.take 50 e).
Proof.
  intros Hin; apply check_record_origin in Hin.
  destruct Hin as [->|[(e & ->)|[(e & ->)|(el & product_name & _ & _ & ->)]]].
  - right; now left.
  - right; right; left; now exists e.
  - right; right; right; now exists e.
  - left; apply determine_availability_label.
Qed.

Lemma availability_values_witness :
  In (card_record "10019" "Manhattan, NYC" Sample.eggs_unreadable Sample.eggs_text)
     (collected (check_instacart_availability (Sample.found [Sample.eggs_unreadable])
                   "10019" "Manhattan, NYC")) /\
  (card_label
     (availability (card_record "10019" "Manhattan, NYC" Sample.eggs_unreadable
                      Sample.eggs_text)) \/
   availability (card_record "10019" "Manhattan, NYC" Sample.eggs_unreadable Sample.eggs_text)
   = "Not Found" \/
   (exists e,
      availability (card_record "10019" "Manhattan, NYC" Sample.eggs_unreadable
                      Sample.eggs_text)
      = "Scraping Error: " ++ PyStr.take 50 e) \/
   (exists e,
      availability (card_record "10019" "Manhattan, NYC" Sample.eggs_unreadable
                      Sample.eggs_text)
      = "Error: " ++ PyStr.take 50 e)).
Proof.
  assert (Hin : In (card_record "10019" "Manhattan, NYC" Sample.eggs_unreadable
                      Sample.eggs_text)
                   (collected (check_instacart_availability
                                 (Sample.found [Sample.eggs_unreadable])
                                 "10019" "Manhattan, NYC"))) by (left; reflexivity).
  split; [exact Hin|].
  exact (availability_values (Sample.found [Sample.eggs_unreadable]) "10019" "Manhattan, NYC"
           _ Hin).
Defined.

(** ** The availability test *)

Lemma startswith_shorter (p q s : string) :
  PyStr.startswith (p ++ q) s = true -> PyStr.startswith p s = true.
Proof.
  revert s; induction p as [|a p IH]; intros [|b s]; cbn [append PyStr.startswith];
    try reflexivity; try discriminate.
  intros H; apply andb_true_iff in H as [Hab H].
  rewrite Hab; cbn [andb]; auto.
Qed.

Lemma contains_shorter (p q s : string) :
  PyStr.contains (p ++ q) s = true -> PyStr.contains p s = true.
Proof.
  induction s as [|b s IH]; cbn [PyStr.contains]; intros H;
    apply orb_true_iff in H as [H|H]; apply orb_true_iff.
  - left; eapply startswith_shorter; eassumption.
  - discriminate.
  - left; eapply startswith_shorter; eassumption.
  - right; auto.
Qed.

(** X9. The test for "add to cart" never decides the availability: markup
    without an out-of-stock phrase is "In Stock" exactly when it contains
    "add", in whatever word, and "Available" otherwise. *)
Theorem add_to_cart_test_is_redundant (product_html : string) :
  classify product_html
  = if PyStr.contains "out of stock" product_html || PyStr.contains "unavailable" product_html
    then "Out of Stock"
    else if PyStr.contains "add" product_html then "In Stock" else "Available".
Proof.
  unfold classify.
  destruct (_ || _); [reflexivity|].
  destruct (PyStr.contains "add to cart" product_html) eqn:Hcart; [|reflexivity].
  change "add to cart" with ("add" ++ " to cart") in Hcart.
  apply contains_shorter in Hcart; rewrite Hcart; reflexivity.
Qed.

(** ** The search phase *)

Lemma try_selectors_false (act : string -> outcome unit) (selectors : list string) :
  try_selectors act selectors = false <->
  forall selector, In selector selectors -> exists e, act selector = Raise e.
Proof.
  induction selectors as [|selector rest IH]; cbn [try_selectors].
  - split; [intros _ sel [] | reflexivity].
  - destruct (act selector) as [[]|e] eqn:Hact; split.
    + discriminate.
    + intros Hall; destruct (Hall selector (in_eq _ _)) as (e & He); congruence.
    + intros Hrest sel [<-|Hin]; [eauto | now apply IH].
    + intros Hall; apply IH; intros sel Hin; apply Hall; now right.
Qed.

(** X10. The search phase raises exactly when filling and submitting fails
    for every one of the four search boxes and the direct search URL then
    fails to load; the exception is that of the direct URL. *)
Theorem search_raises_iff (s : session) (e : string) :
  search s = Raise e <->
  (forall selector, In selector search_selectors ->
     exists e', fill s selector ;; press_search s selector = Raise e') /\
  goto_search s = Raise e.
Proof.
  unfold search.
  destruct (try_selectors _ search_selectors) eqn:Htry.
  - split; [discriminate|].
    intros (Hall & _); apply (proj2 (try_selectors_false _ _)) in Hall; congruence.
  - pose proof (proj1 (try_selectors_false _ _) Htry) as Hall; tauto.
Qed.

Lemma search_raises_iff_witness :
  search Sample.search_fails = Raise Sample.timeout /\
  goto_search Sample.search_fails = Raise Sample.timeout.
Proof.
  assert (Hsearch : search Sample.search_fails = Raise Sample.timeout) by reflexivity.
  split; [exact Hsearch|].
  exact (proj2 (proj1 (search_raises_iff Sample.search_fails Sample.timeout) Hsearch)).
Defined.

(** ** The fields of the records *)

Lemma first_line_has_no_newline (s : string) :
  has_char "010" (PyStr.first_line s) = false.
Proof.
  induction s as [|c s IH]; cbn [PyStr.first_line has_char]; [reflexivity|].
  destruct (Ascii.eqb c "010") eqn:Hc; cbn [has_char]; [reflexivity|].
  rewrite Hc, IH; reflexivity.
Qed.

(** X11. The product field of a record returned by a check never contains a
    newline: it is the first line of the card's text, or a sentinel's name. *)
Theorem product_has_no_newline (s : session) (zip area_name : string) (r : result) :
  In r (collected (check_instacart_availability s zip area_name)) ->
  has_char "010" (product r) = false.
Proof.
  intros Hin; apply check_record_origin in Hin.
  destruct Hin as [->|[(e & ->)|[(e & ->)|(el & product_name & _ & _ & ->)]]];
    try reflexivity.
  apply first_line_has_no_newline.
Qed.

Lemma product_has_no_newline_witness :
  has_char "010" Sample.eggs_text = true /\
  In Sample.eggs_record
     (collected (check_instacart_availability (Sample.found [Sample.eggs])
                   "10019" "Manhattan, NYC")) /\
  has_char "010" (product Sample.eggs_record) = false.
Proof.
  assert (Hin : In Sample.eggs_record
                   (collected (check_instacart_availability (Sample.found [Sample.eggs])
                                 "10019" "Manhattan, NYC"))) by (left; reflexivity).
  split; [reflexivity|]; split; [exact Hin|].
  exact (product_has_no_newline (Sample.found [Sample.eggs]) "10019" "Manhattan, NYC"
           Sample.eggs_record Hin).
Defined.

Section Strip.

Lemma rstrip_cons (c : ascii) (s : string) :
  PyStr.rstrip (String c s)
  = match PyStr.rstrip s with
    | EmptyString => if PyStr.is_space c then EmptyString else String c EmptyString
    | String d t => String c (String d t)
    end.
Proof. reflexivity. Qed.

Lemma rstrip_idempotent (s : string) : PyStr.rstrip (PyStr.rstrip s) = PyStr.rstrip s.
Proof.
  induction s as [|c s IH]; [reflexivity|].
  rewrite rstrip_cons.
  destruct (PyStr.rstrip s) as [|d t] eqn:Hs.
  - destruct (PyStr.is_space c) eqn:Hc; [reflexivity|].
    rewrite rstrip_cons; cbn [PyStr.rstrip]; rewrite Hc; reflexivity.
  - rewrite rstrip_cons, IH; reflexivity.
Qed.

(** What [lstrip] returns is empty or starts with a character it keeps. *)
Lemma lstrip_head (s : string) :
  match PyStr.lstrip s with
  | EmptyString => True
  | String c _ => PyStr.is_space c = false
  end.
Proof.
  induction s as [|c s IH]; cbn [PyStr.lstrip]; [exact I|].
  destruct (PyStr.is_space c) eqn:Hc; [exact IH | exact Hc].
Qed.

Lemma lstrip_after_rstrip (s : string) :
  match s with
  | EmptyString => True
  | String c _ => PyStr.is_space c = false
  end ->
  PyStr.lstrip (PyStr.rstrip s) = PyStr.rstrip s.
Proof.
  destruct s as [|c s]; [reflexivity|]; intros Hc.
  rewrite rstrip_cons.
  destruct (PyStr.rstrip s); rewrite ?Hc; cbn [PyStr.lstrip]; rewrite Hc; reflexivity.
Qed.

Lemma strip_idempotent (s : string) : PyStr.strip (PyStr.strip s) = PyStr.strip s.
Proof.
  unfold PyStr.strip.
  rewrite (lstrip_after_rstrip (PyStr.lstrip s) (lstrip_head s)).
  apply rstrip_idempotent.
Qed.

Lemma extract_field_trimmed (default : string) (q : outcome (option (outcome string))) :
  trimmed default -> trimmed (extract_field default q).
Proof.
  intros Hdefault; unfold extract_field.
  destruct q as [ [ [text | ] | ] | ]; try exact Hdefault.
  apply strip_idempotent.
Qed.

End Strip.

(** X12. The price and the store of a record returned by a check carry no
    leading or trailing whitespace: each is a default value or the trimmed
    text of the element it was read from. *)
Theorem price_and_store_are_trimmed (s : session) (zip area_name : string) (r : result) :
  In r (collected (check_instacart_availability s zip area_name)) ->
  trimmed (price r) /\ trimmed (store r).
Proof.
  intros Hin; apply check_record_origin in Hin.
  destruct Hin as [->|[(e & ->)|[(e & ->)|(el & product_name & _ & _ & ->)]]];
    try (split; reflexivity).
  split; apply extract_field_trimmed; reflexivity.
Qed.

Lemma price_and_store_are_trimmed_witness :
  In (card_record "10019" "Manhattan, NYC" Sample.eggs_padded Sample.eggs_text)
     (collected (check_instacart_availability (Sample.found [Sample.eggs_padded])
                   "10019" "Manhattan, NYC")) /\
  price (card_record "10019" "Manhattan, NYC" Sample.eggs_padded Sample.eggs_text) = "$7.99" /\
  trimmed (price (card_record "10019" "Manhattan, NYC" Sample.eggs_padded Sample.eggs_text)).
Proof.
  assert (Hin : In (card_record "10019" "Manhattan, NYC" Sample.eggs_padded Sample.eggs_text)
                   (collected (check_instacart_availability
                                 (Sample.found [Sample.eggs_padded])
                                 "10019" "Manhattan, NYC"))) by (left; reflexivity).
  split; [exact Hin|]; split; [reflexivity|].
  exact (proj1 (price_and_store_are_trimmed (Sample.found [Sample.eggs_padded])
                  "10019" "Manhattan, NYC" _ Hin)).
Defined.

(** ** The output files over any number of runs *)

Section Runs.

Lemma save_all_cons (all_results : list result) (runs : list (list result)) (fs : files) :
  save_all (all_results :: runs) fs = save_all runs (save_results all_results fs).
Proof. reflexivity. Qed.

Lemma save_results_existing (all_results : list result) (fs : files) (rows : list csv_row) :
  csv_file fs = Some rows ->
  csv_file (save_results all_results fs) = Some (rows ++ map writerow all_results)%list.
Proof.
  intros Hrows; destruct all_results as [|r rest].
  - cbn [map]; rewrite app_nil_r; exact Hrows.
  - rewrite save_results_nonempty by discriminate.
    unfold csv_rows, csv_exists; cbn [csv_file]; rewrite Hrows; reflexivity.
Qed.

Lemma csv_of_existing_file (runs : list (list result)) :
  forall (fs : files) (rows : list csv_row),
    csv_file fs = Some rows ->
    csv_file (save_all runs fs) = Some (rows ++ map writerow (concat runs))%list.
Proof.
  induction runs as [|all_results runs IH]; intros fs rows Hrows.
  - cbn [save_all fold_left concat map]; now rewrite app_nil_r.
  - rewrite save_all_cons.
    rewrite (IH _ _ (save_results_existing all_results fs rows Hrows)).
    now rewrite concat_cons, map_app, app_assoc.
Qed.

Lemma find_app {A : Type} (p : A -> bool) (l1 l2 : list A) :
  find p (l1 ++ l2)%list = match find p l1 with Some x => Some x | None => find p l2 end.
Proof.
  induction l1 as [|x l1 IH]; cbn [app find]; [reflexivity|].
  destruct (p x); [reflexivity | exact IH].
Qed.

End Runs.

(** X13. Over any number of runs that start without the CSV file, the file
    is created by the first run that produced a record and then holds one
    header row, at the top, followed by one row per record of all the runs in
    order; while no run has produced a record there is no file. *)
Theorem csv_after_any_runs (runs : list (list result)) (fs : files) :
  csv_file fs = None ->
  csv_file (save_all runs fs)
  = if forallb is_empty runs
    then None
    else Some (Header fieldnames :: map writerow (concat runs)).
Proof.
  revert fs; induction runs as [|all_results runs IH]; intros fs Hnone; [exact Hnone|].
  rewrite save_all_cons, concat_cons, map_app; cbn [forallb].
  destruct all_results as [|r rest]; cbn [is_empty andb].
  - apply IH; exact Hnone.
  - rewrite (csv_of_existing_file runs _ (Header fieldnames :: map writerow (r :: rest))).
    + reflexivity.
    + rewrite save_results_nonempty by discriminate.
      unfold csv_rows, csv_exists; rewrite Hnone; reflexivity.
Qed.

Lemma csv_after_any_runs_witness :
  csv_file no_files = None /\
  csv_file (save_all [ []; [Sample.eggs_record]; []; [Sample.eggs_record; Sample.eggs_record] ]
              no_files)
  = Some [ Header fieldnames; writerow Sample.eggs_record; writerow Sample.eggs_record;
           writerow Sample.eggs_record ].
Proof.
  split; [reflexivity|].
  exact (csv_after_any_runs
           [ []; [Sample.eggs_record]; []; [Sample.eggs_record; Sample.eggs_record] ]
           no_files eq_refl).
Defined.

(** X14. After any number of runs the JSON file holds the records of the
    latest run that produced at least one, and is as it was before when no run
    produced any. *)
Theorem json_holds_latest_nonempty_run (runs : list (list result)) (fs : files) :
  json_file (save_all runs fs)
  = match find (fun all_results => negb (is_empty all_results)) (rev runs) with
    | Some latest => Some latest
    | None => json_file fs
    end.
Proof.
  revert fs; induction runs as [|all_results runs IH]; intros fs; [reflexivity|].
  rewrite save_all_cons, IH; cbn [rev]; rewrite find_app.
  destruct (find _ (rev runs)); [reflexivity|].
  destruct all_results; reflexivity.
Qed.

(** X15. To a CSV file that already exists, be it empty or without a header,
    [save_results] never appends a header row: over any number of runs, what
    is appended after the rows that were there is one row per record of the
    runs, in order, and nothing else. *)
Theorem existing_csv_gets_no_header
  (runs : list (list result)) (fs : files) (rows : list csv_row) :
  csv_file fs = Some rows ->
  exists appended,
    csv_file (save_all runs fs) = Some (rows ++ appended)%list /\
    appended = map writerow (concat runs) /\
    filter is_header appended = [] /\
    List.length appended = List.length (concat runs).
Proof.
  intros Hrows; exists (map writerow (concat runs)).
  split; [exact (csv_of_existing_file runs fs rows Hrows)|].
  split; [reflexivity|].
  split; [apply filter_header_rows | apply length_map].
Qed.

Lemma existing_csv_gets_no_header_witness :
  csv_file Sample.empty_csv = Some [] /\
  csv_file (save_all [ [Sample.eggs_record]; [Sample.eggs_record] ] Sample.empty_csv)
  = Some [ writerow Sample.eggs_record; writerow Sample.eggs_record ].
Proof.
  split; [reflexivity|].
  destruct (existing_csv_gets_no_header [ [Sample.eggs_record]; [Sample.eggs_record] ]
              Sample.empty_csv [] eq_refl) as (appended & Hcsv & -> & _).
  exact Hcsv.
Defined.

(** X16. Whenever a JSON snapshot exists, its records are the last rows of
    the CSV file, in the same order: [save_results] keeps this true, so it
    holds after any number of runs that started with it, in particular
    without files. *)
Theorem snapshot_stays_tail_of_csv (runs : list (list result)) (fs : files) :
  snapshot_is_tail fs -> snapshot_is_tail (save_all runs fs).
Proof.
  revert fs; induction runs as [|all_results runs IH]; intros fs Htail; [exact Htail|].
  rewrite save_all_cons; apply IH.
  destruct all_results as [|r rest]; [exact Htail|].
  rewrite save_results_nonempty by discriminate.
  intros snapshot Hsnap; cbn [json_file csv_file] in *.
  injection Hsnap as <-.
  exists (csv_rows fs ++ (if csv_exists fs then [] else [Header fieldnames]))%list.
  now rewrite <- app_assoc.
Qed.

Lemma snapshot_stays_tail_of_csv_witness :
  snapshot_is_tail no_files /\
  snapshot_is_tail
    (save_all [ [Sample.eggs_record]; []; [Sample.eggs_record; Sample.eggs_record] ] no_files).
Proof.
  assert (Hnone : snapshot_is_tail no_files) by (intros snapshot Hsnap; discriminate Hsnap).
  split; [exact Hnone|].
  exact (snapshot_stays_tail_of_csv
           [ [Sample.eggs_record]; []; [Sample.eggs_record; Sample.eggs_record] ]
           no_files Hnone).
Defined.

(** ** A whole run *)

Section Run.

Variable w : world.

Lemma visit_tagged (entry : string * string) (r : result) :
  In r (visit w entry) -> zip_code r = fst entry /\ area r = snd entry.
Proof.
  unfold visit; intros Hin; apply check_record_origin in Hin.
  destruct Hin as [->|[(e & ->)|[(e & ->)|(el & product_name & _ & _ & ->)]]];
    split; reflexivity.
Qed.

Lemma check_all_origin (table : list (string * string)) (r : result) :
  In r (check_all table w) -> exists entry, In entry table /\ In r (visit w entry).
Proof.
  rewrite check_all_flat_map; intros Hin.
  apply in_flat_map in Hin as (entry & Hentry & Hr); eauto.
Qed.

Lemma find_nowhere {A : Type} (p : A -> bool) (l : list A) :
  (forall x, In x l -> p x = false) -> find p l = None.
Proof.
  induction l as [|x l IH]; intros Hall; cbn [find]; [reflexivity|].
  rewrite (Hall x (in_eq _ _)); apply IH; intros; apply Hall; now right.
Qed.

Lemma find_everywhere {A : Type} (p : A -> bool) (l : list A) :
  (forall x, In x l -> p x = true) -> find p l = hd_error l.
Proof.
  destruct l as [|x l]; intros Hall; cbn [find hd_error]; [reflexivity|].
  now rewrite (Hall x (in_eq _ _)).
Qed.

(** With distinct codes in the table, the first record of a code in
    [all_results] is the first record its own check returned. *)
Lemma first_record_of_zip (table : list (string * string)) (zip area_name : string) :
  NoDup (map fst table) ->
  In (zip, area_name) table ->
  find (fun r => zip_code r =? zip) (check_all table w) = hd_error (visit w (zip, area_name)).
Proof.
  rewrite check_all_flat_map.
  induction table as [|entry table IH]; intros Hdup Hin; [contradiction|].
  cbn [map] in Hdup; apply NoDup_cons_iff in Hdup as [Hfresh Hdup].
  cbn [flat_map]; rewrite find_app.
  destruct Hin as [->|Hin].
  - rewrite find_everywhere.
    + destruct (visit w (zip, area_name)) as [|first rest] eqn:Hvisit; [|reflexivity].
      apply find_nowhere; intros r Hr.
      apply in_flat_map in Hr as (other & Hother & Hr).
      apply visit_tagged in Hr as [-> _]; apply String.eqb_neq.
      intros Heq; apply Hfresh; cbn [fst]; rewrite <- Heq; now apply in_map.
    + intros r Hr; apply visit_tagged in Hr as [-> _]; apply String.eqb_refl.
  - rewrite find_nowhere; [now apply IH|].
    intros r Hr; apply visit_tagged in Hr as [-> _]; apply String.eqb_neq.
    intros Heq; apply Hfresh; rewrite Heq.
    change zip with (fst (zip, area_name)); now apply in_map.
Qed.

End Run.

Lemma summary_entries_of_zip
  (table : list (string * string)) (all_results : list result) (zip area_name : string) :
  NoDup (map fst table) ->
  (forall key, In key (map fst table) -> has_char " " key = false) ->
  all_results <> [] ->
  In (zip, area_name) table ->
  filter (is_line_for zip) (print_summary table all_results)
  = [zip_line all_results (zip, area_name)].
Proof.
  intros Hdup Hkeys Hsome Hin; unfold print_summary.
  destruct all_results as [|r rs] eqn:Hall; [congruence|]; cbn [is_empty].
  rewrite <- Hall, !filter_app, no_line_in_counts.
  rewrite (details_have_one_line all_results table zip area_name) by assumption.
  unfold summary_banner, details_heading, summary_footer; cbn [filter].
  rewrite !not_line_without_paren by reflexivity; reflexivity.
Qed.

(** X18. Every record a run returns carries a postal code of the lookup table
    together with the area name the table gives for it. *)
Theorem run_records_come_from_table
  (table : list (string * string)) (w : world) (fs : files) (r : result) :
  In r (returned (main table w fs)) -> In (zip_code r, area r) table.
Proof.
  unfold main; cbn [returned]; intros Hin.
  apply check_all_origin in Hin as (entry & Hentry & Hr).
  apply visit_tagged in Hr as [-> ->].
  now rewrite <- surjective_pairing.
Qed.

Lemma run_records_come_from_table_witness :
  In Sample.eggs_record
     (returned (main ZIP_CODES
                  (fun zip => if zip =? "10019"
                              then Sample.found [Sample.eggs] else Sample.search_fails)
                  no_files)) /\
  In ("10019", "Manhattan, NYC") ZIP_CODES.
Proof.
  assert (Hin : In Sample.eggs_record
                   (returned (main ZIP_CODES
                                (fun zip => if zip =? "10019"
                                            then Sample.found [Sample.eggs]
                                            else Sample.search_fails)
                                no_files))) by (left; reflexivity).
  split; [exact Hin|].
  exact (run_records_come_from_table ZIP_CODES _ no_files Sample.eggs_record Hin).
Defined.

(** X19. In the summary of a run that collected at least one record, the
    entry of a postal code shows the availability and price of the first
    record that code's own check returned, and "No data" when its check
    returned none or raised (codes distinct and without a space). *)
Theorem summary_shows_first_record_of_check
  (table : list (string * string)) (w : world) (fs : files) (zip area_name : string) :
  NoDup (map fst table) ->
  (forall key, In key (map fst table) -> has_char " " key = false) ->
  In (zip, area_name) table ->
  returned (main table w fs) <> [] ->
  filter (is_line_for zip) (summary (main table w fs))
  = [ match collected (check_instacart_availability (w zip) zip area_name) with
      | first :: _ =>
          zip ++ " (" ++ PyStr.ljust 20 area_name ++ "): "
              ++ PyStr.ljust 15 (availability first) ++ " - " ++ price first
      | [] =>
          zip ++ " (" ++ PyStr.ljust 20 area_name ++ "): No data"
      end ].
Proof.
  intros Hdup Hkeys Hin; unfold main; cbn [returned summary]; intros Hsome.
  rewrite summary_entries_of_zip with (area_name := area_name) by assumption.
  rewrite zip_line_first, (first_record_of_zip w table zip area_name Hdup Hin).
  unfold visit; cbn [fst snd].
  destruct (collected _); reflexivity.
Qed.

Lemma summary_shows_first_record_of_check_witness :
  In ("10019", "Manhattan, NYC") ZIP_CODES /\
  In ("98112", "Seattle, WA") ZIP_CODES /\
  filter (is_line_for "10019")
    (summary (main ZIP_CODES
                (fun zip => if zip =? "10019"
                            then Sample.found [Sample.eggs_sold_out; Sample.eggs]
                            else Sample.search_fails)
                no_files))
  = [ "10019 (Manhattan, NYC      ): Out of Stock    - $7.99" ] /\
  filter (is_line_for "98112")
    (summary (main ZIP_CODES
                (fun zip => if zip =? "10019"
                            then Sample.found [Sample.eggs_sold_out; Sample.eggs]
                            else Sample.search_fails)
                no_files))
  = [ "98112 (Seattle, WA         ): No data" ].
Proof.
  assert (Hny : In ("10019", "Manhattan, NYC") ZIP_CODES) by (cbn; tauto).
  assert (Hwa : In ("98112", "Seattle, WA") ZIP_CODES) by (cbn; tauto).
  assert (Hsome :
    returned (main ZIP_CODES
                (fun zip => if zip =? "10019"
                            then Sample.found [Sample.eggs_sold_out; Sample.eggs]
                            else Sample.search_fails)
                no_files) <> []) by (vm_compute; discriminate).
  split; [exact Hny|]; split; [exact Hwa|]; split.
  - exact (summary_shows_first_record_of_check ZIP_CODES _ no_files "10019" "Manhattan, NYC"
             zip_codes_distinct zip_codes_have_no_space Hny Hsome).
  - exact (summary_shows_first_record_of_check ZIP_CODES _ no_files "98112" "Seattle, WA"
             zip_codes_distinct zip_codes_have_no_space Hwa Hsome).
Defined.

(** X20. When the check of at least one postal code of the table gets as far
    as the Result Extractor, the run returns at least one record and leaves
    both files in place: the JSON file holds exactly the returned list and
    the CSV file ends with one row per returned record. *)
Theorem searchable_code_makes_run_write
  (table : list (string * string)) (w : world) (fs : files) (zip area_name : string) :
  In (zip, area_name) table ->
  reaches_extractor (w zip) ->
  returned (main table w fs) <> [] /\
  json_file (files_after (main table w fs)) = Some (returned (main table w fs)) /\
  exists earlier,
    csv_file (files_after (main table w fs))
    = Some (earlier ++ map writerow (returned (main table w fs)))%list.
Proof.
  intros Hin Hreach; unfold main; cbn [returned files_after].
  assert (Hsome : check_all table w <> []).
  { apply in_split in Hin as (before & after & ->).
    rewrite check_all_split, check_extracts by assumption; cbn [collected].
    pose proof (extract_products_length (w zip) zip area_name) as Hlen.
    destruct (extract_products (w zip) zip area_name []); [cbn in Hlen; lia|].
    intros Hnil; apply app_eq_nil in Hnil as [_ Hnil]; discriminate Hnil. }
  split; [exact Hsome|].
  rewrite save_results_nonempty by assumption; cbn [json_file csv_file].
  split; [reflexivity|].
  exists (csv_rows fs ++ (if csv_exists fs then [] else [Header fieldnames]))%list.
  now rewrite <- app_assoc.
Qed.

Lemma searchable_code_makes_run_write_witness :
  In ("10019", "Manhattan, NYC") ZIP_CODES /\
  reaches_extractor (Sample.found [Sample.milk]) /\
  json_file
    (files_after (main ZIP_CODES
                    (fun zip => if zip =? "10019"
                                then Sample.found [Sample.milk] else Sample.search_fails)
                    no_files))
  = Some (returned (main ZIP_CODES
                      (fun zip => if zip =? "10019"
                                  then Sample.found [Sample.milk] else Sample.search_fails)
                      no_files)).
Proof.
  assert (Hny : In ("10019", "Manhattan, NYC") ZIP_CODES) by (cbn; tauto).
  assert (Hreach : reaches_extractor (Sample.found [Sample.milk])) by (repeat split).
  split; [exact Hny|]; split; [exact Hreach|].
  exact (proj1 (proj2 (searchable_code_makes_run_write ZIP_CODES
                         (fun zip => if zip =? "10019"
                                     then Sample.found [Sample.milk] else Sample.search_fails)
                         no_files "10019" "Manhattan, NYC" Hny Hreach))).
Defined.

(** ** The counts of the summary *)

Section Counts.

Lemma count_where_cons (p : result -> bool) (r : result) (rs : list result) :
  count_where p (r :: rs) = Nat.b2n (p r) + count_where p rs.
Proof. unfold count_where; cbn [filter]; destruct (p r); reflexivity. Qed.

(** A record with a card label or "Not Found" falls in exactly one of the
    three buckets or is "Unknown", and is no error. *)
Lemma bucket_of_label (r : result) :
  card_label (availability r) \/ availability r = "Not Found" ->
  Nat.b2n (status_has "in stock" r || status_has "available" r)
  + Nat.b2n (status_has "out of stock" r)
  + Nat.b2n (status_has "not found" r)
  + Nat.b2n (availability r =? "Unknown") = 1 /\
  status_has "error" r = false.
Proof.
  unfold status_has, card_label.
  intros [[H|[H|[H|H]]]|H]; rewrite H; split; reflexivity.
Qed.

Lemma lower_app (a b : string) : PyStr.lower (a ++ b) = PyStr.lower a ++ PyStr.lower b.
Proof. induction a as [|c a IH]; cbn [append PyStr.lower]; [reflexivity | now rewrite IH]. Qed.

Lemma startswith_longer (p a b : string) :
  PyStr.startswith p a = true -> PyStr.startswith p (a ++ b) = true.
Proof.
  revert a; induction p as [|c p IH]; intros [|d a]; cbn [append PyStr.startswith];
    try reflexivity; try discriminate.
  intros H; apply andb_true_iff in H as [Hcd H].
  rewrite Hcd; cbn [andb]; auto.
Qed.

Lemma contains_longer (p a b : string) :
  PyStr.contains p a = true -> PyStr.contains p (a ++ b) = true.
Proof.
  induction a as [|d a IH]; intros H.
  - cbn [PyStr.contains] in H; rewrite orb_false_r in H.
    destruct p; [|discriminate H].
    destruct b; reflexivity.
  - cbn [append PyStr.contains] in *.
    apply orb_true_iff in H as [H|H]; apply orb_true_iff.
    + left; now apply (startswith_longer p (String d a) b).
    + right; auto.
Qed.

End Counts.

(** X21. For records that carry a card label or "Not Found", the three
    buckets of the summary are disjoint and miss exactly the "Unknown"
    records: In Stock, Out of Stock and Not Found add up to the total minus
    the number of "Unknown" records, and Errors is zero. *)
Theorem summary_buckets_miss_only_unknown (all_results : list result) :
  (forall r, In r all_results ->
             card_label (availability r) \/ availability r = "Not Found") ->
  count_where (fun r => status_has "in stock" r || status_has "available" r) all_results
  + count_where (status_has "out of stock") all_results
  + count_where (status_has "not found") all_results
  + count_where (fun r => availability r =? "Unknown") all_results
  = List.length all_results /\
  count_where (status_has "error") all_results = 0.
Proof.
  induction all_results as [|r rs IH]; intros Hlabels; [split; reflexivity|].
  destruct (bucket_of_label r (Hlabels r (in_eq _ _))) as [Hone Herr].
  destruct IH as [IHsum IHerr]; [intros; apply Hlabels; now right|].
  rewrite !count_where_cons, Herr, IHerr; cbn [List.length Nat.b2n].
  split; [lia | reflexivity].
Qed.

Lemma summary_buckets_miss_only_unknown_witness :
  count_where (fun r => status_has "in stock" r || status_has "available" r)
    [ Sample.eggs_record;
      card_record "10019" "Manhattan, NYC" Sample.eggs_unreadable Sample.eggs_text ]
  + count_where (status_has "out of stock")
      [ Sample.eggs_record;
        card_record "10019" "Manhattan, NYC" Sample.eggs_unreadable Sample.eggs_text ]
  + count_where (status_has "not found")
      [ Sample.eggs_record;
        card_record "10019" "Manhattan, NYC" Sample.eggs_unreadable Sample.eggs_text ]
  + count_where (fun r => availability r =? "Unknown")
      [ Sample.eggs_record;
        card_record "10019" "Manhattan, NYC" Sample.eggs_unreadable Sample.eggs_text ]
  = 2.
Proof.
  apply (summary_buckets_miss_only_unknown
           [ Sample.eggs_record;
             card_record "10019" "Manhattan, NYC" Sample.eggs_unreadable Sample.eggs_text ]).
  intros r [<-|[<-|[]]]; left; unfold card_label; cbn; tauto.
Defined.

Lemma contains_after (p a b : string) :
  PyStr.contains p b = true -> PyStr.contains p (a ++ b) = true.
Proof.
  intros Hb; induction a as [|c a IH]; [exact Hb|].
  cbn [append PyStr.contains]; rewrite IH; apply orb_true_r.
Qed.

(** X22. Every error sentinel is counted under Errors, whatever the message
    of the exception; the not-found sentinel is not.  The buckets overlap: an
    error sentinel is counted under any other bucket too whose phrase occurs,
    in any case, within the first 50 characters of the message; thus
    "Selector not found" also counts under Not Found. *)
Theorem error_sentinels_count_as_errors (s : session) (zip area_name e : string) :
  status_has "error" (scraping_error_record s zip area_name e) = true /\
  status_has "error" (critical_error_record s zip area_name e) = true /\
  status_has "error" (not_found_record s zip area_name) = false /\
  (forall phrase,
     PyStr.contains phrase (PyStr.lower (PyStr.take 50 e)) = true ->
     status_has phrase (scraping_error_record s zip area_name e) = true /\
     status_has phrase (critical_error_record s zip area_name e) = true).
Proof.
  unfold status_has; cbn [availability scraping_error_record critical_error_record
                          not_found_record].
  rewrite !lower_app.
  split; [apply contains_longer; reflexivity|].
  split; [apply contains_longer; reflexivity|].
  split; [reflexivity|].
  intros phrase Hphrase; split; apply contains_after; exact Hphrase.
Qed.

Lemma error_sentinels_count_as_errors_witness :
  PyStr.contains "not found" (PyStr.lower (PyStr.take 50 "Selector not found")) = true /\
  status_has "not found"
    (scraping_error_record Sample.wait_fails "10019" "Manhattan, NYC" "Selector not found")
  = true /\
  status_has "error"
    (scraping_error_record Sample.wait_fails "10019" "Manhattan, NYC" "Selector not found")
  = true.
Proof.
  split; [reflexivity|].
  destruct (error_sentinels_count_as_errors Sample.wait_fails "10019" "Manhattan, NYC"
              "Selector not found") as (Herror & _ & _ & Hphrase).
  split; [exact (proj1 (Hphrase "not found" eq_refl)) | exact Herror].
Defined.
